(** * hid-veikk: frame decoding, bitmap merging and activation scheduling

    A shallow embedding of [hid-veikk.c] (the VEIKK digitizer driver,
    3.0.0a1) and the properties of its raw-event path and of its probe-time
    work scheduling.

    Conventions.
    - C's fixed-width unsigned integers are [Z] values; every store into a
      [u8] or [u16] object is written out as a reduction modulo [2^8] or
      [2^16].  Arithmetic on promoted operands ([int]) is plain [Z]
      arithmetic, with [~] as [Z.lnot].
    - Bytes coming from the wire are [Byte.byte]; the structs that the
      driver overlays on the report buffer keep [byte] fields.
    - The driver reaches the device descriptor through [hid_get_drvdata] and
      the input device through [veikk_dev->input_dev].  Both are threaded by
      a small monad [drv]: the descriptor is its state, the calls made on the
      input device are its output. *)

From Stdlib Require Import String ZArith List Bool Lia Sorted.
From Stdlib Require Import Strings.Byte.
Import ListNotations.
Local Open Scope Z_scope.

(** ** Machine integers *)

(** Value of a [u8] read from a buffer. *)
Definition byte_val (b : byte) : Z := Z.of_N (Byte.to_N b).

(** Conversion to [u8] and to [u16] (what a store into such an object keeps). *)
Definition to_u8 (z : Z) : Z := z mod 2 ^ 8.
Definition to_u16 (z : Z) : Z := z mod 2 ^ 16.

(** Modelled from the spec: [get_unaligned_le16] comes from the kernel header
    [asm/unaligned.h], which is not part of the driver; the payload fields it
    reads are "little-endian 16-bit fields", so it is [p[0] | p[1] << 8]. *)
Definition get_unaligned_le16 (p : byte * byte) : Z :=
  Z.lor (byte_val (fst p)) (Z.shiftl (byte_val (snd p)) 8).

(** [errno] values used by the driver (kernel [errno-base.h]). *)
Definition ENOMEM : Z := 12.
Definition EINVAL : Z := 22.

(** ** Report layouts *)

Definition VEIKK_PEN_REPORT : Z := 0x41.
Definition VEIKK_BUTTON_REPORT : Z := 0x42.
Definition VEIKK_PAD_REPORT : Z := 0x43.

(** [struct veikk_report]: [u8 id; u8 type; u8 data[7]]. *)
Record veikk_report := {
  rpt_id : byte;
  rpt_type : byte;
  rpt_data : list byte
}.

Definition sizeof_veikk_report : Z := 9.

(** [struct veikk_pen_report_data]: [u8 btns; u8 x[2], y[2], pressure[2]]. *)
Record veikk_pen_report_data := {
  pen_btns : byte;
  pen_x : byte * byte;
  pen_y : byte * byte;
  pen_pressure : byte * byte
}.

(** [struct veikk_buttons_report_data]: [u8 type; u8 pressed; u8 btns[2];
    u8 unused2[3]]. *)
Record veikk_buttons_report_data := {
  btn_type : byte;
  btn_pressed : byte;
  btn_btns : byte * byte;
  btn_unused2 : list byte
}.

(** [struct veikk_pad_report_data]: [u8 pressed; u8 btns; u8 unused[5]]. *)
Record veikk_pad_report_data := {
  pad_pressed : byte;
  pad_btns : byte;
  pad_unused : list byte
}.

(** Reading a buffer at an offset. *)
Definition at_ (buf : list byte) (i : nat) : byte := nth i buf x00.

(** The pointer casts of [veikk_raw_event]: each struct is laid over the
    buffer, one byte per field element, in declaration order. *)
Definition as_veikk_report (data : list byte) : veikk_report :=
  {| rpt_id := at_ data 0;
     rpt_type := at_ data 1;
     rpt_data := firstn 7 (skipn 2 data) |}.

Definition as_pen_report_data (d : list byte) : veikk_pen_report_data :=
  {| pen_btns := at_ d 0;
     pen_x := (at_ d 1, at_ d 2);
     pen_y := (at_ d 3, at_ d 4);
     pen_pressure := (at_ d 5, at_ d 6) |}.

Definition as_buttons_report_data (d : list byte) : veikk_buttons_report_data :=
  {| btn_type := at_ d 0;
     btn_pressed := at_ d 1;
     btn_btns := (at_ d 2, at_ d 3);
     btn_unused2 := firstn 3 (skipn 4 d) |}.

Definition as_pad_report_data (d : list byte) : veikk_pad_report_data :=
  {| pad_pressed := at_ d 0;
     pad_btns := at_ d 1;
     pad_unused := firstn 5 (skipn 2 d) |}.

(** ** Models and the device descriptor *)

(** [struct veikk_model]; the capability flags are C [int]s. *)
Record veikk_model := {
  name : string;
  prod_id : Z;
  x_max : Z;
  y_max : Z;
  pressure_max : Z;
  has_buttons : Z;
  has_pad : Z
}.

(** [struct veikk_device], without the kernel handles ([input_dev],
    [hid_dev], the three [delayed_work] items): [u16 buttons_state;
    u8 pad_state, wheel_state]. *)
Record veikk_device := {
  model : veikk_model;
  buttons_state : Z;
  pad_state : Z;
  wheel_state : Z
}.

(** The descriptor as [veikk_probe] leaves it: [devm_kzalloc] zero-fills it
    and only [model] (and [hid_dev]) are then assigned. *)
Definition probed_device (m : veikk_model) : veikk_device :=
  {| model := m; buttons_state := 0; pad_state := 0; wheel_state := 0 |}.

(** ** The input device *)

(** Key and axis codes used by the driver.  The driver names them
    symbolically (kernel [input-event-codes.h]), except for the two raw codes
    [0x118] and [0x119]. *)
Inductive key_code :=
| BTN_TOUCH | BTN_STYLUS | BTN_STYLUS2
| BTN_0 | BTN_1 | BTN_2 | BTN_3 | BTN_4
| BTN_5 | BTN_6 | BTN_7 | BTN_8 | BTN_9
| KEY_RAW (code : Z)
| BTN_WHEEL | BTN_GEAR_DOWN | BTN_GEAR_UP
| BTN_NORTH | BTN_SOUTH | BTN_WEST | BTN_EAST
| BTN_TOOL_DOUBLETAP.

Inductive abs_code := ABS_X | ABS_Y | ABS_PRESSURE.

(** One call on the input device, with the arguments the driver passes. *)
Inductive input_call :=
| ReportKey (code : key_code) (value : Z)
| ReportAbs (code : abs_code) (value : Z)
| Sync.

(** ** The driver monad *)

(** A driver routine reads and writes the descriptor and issues calls on the
    input device, in order. *)
Definition drv (A : Type) : Type :=
  veikk_device -> A * veikk_device * list input_call.

Definition ret {A} (a : A) : drv A := fun d => (a, d, []).

Definition bind {A B} (c : drv A) (k : A -> drv B) : drv B :=
  fun d =>
    let '(a, d1, out1) := c d in
    let '(b, d2, out2) := k a d1 in
    (b, d2, out1 ++ out2).

Declare Scope drv_scope.
Delimit Scope drv_scope with drv.
Notation "x <- c ;; k" := (bind c (fun x => k))
  (at level 61, c at next level, right associativity) : drv_scope.
Notation "c ;; k" := (bind c (fun _ => k))
  (at level 61, right associativity) : drv_scope.
Notation "' pat <- c ;; k" := (bind c (fun x => match x with pat => k end))
  (at level 61, pat pattern, c at next level, right associativity) : drv_scope.
Local Open Scope drv_scope.

(** Projections of a run. *)
Definition result {A} (r : A * veikk_device * list input_call) : A := fst (fst r).
Definition device_after {A} (r : A * veikk_device * list input_call) : veikk_device :=
  snd (fst r).
Definition calls {A} (r : A * veikk_device * list input_call) : list input_call :=
  snd r.

Definition input_report_key (code : key_code) (value : Z) : drv unit :=
  fun d => (tt, d, [ReportKey code value]).
Definition input_report_abs (code : abs_code) (value : Z) : drv unit :=
  fun d => (tt, d, [ReportAbs code value]).
Definition input_sync : drv unit :=
  fun d => (tt, d, [Sync]).

(** The three bitmap members of the descriptor as assignable objects: how to
    read one, how to store into it, and the conversion a store performs. *)
Record lvalue := {
  lv_get : veikk_device -> Z;
  lv_set : Z -> veikk_device -> veikk_device;
  lv_conv : Z -> Z
}.

Definition buttons_state_lv : lvalue :=
  {| lv_get := buttons_state;
     lv_set := fun v d =>
       {| model := model d; buttons_state := v;
          pad_state := pad_state d; wheel_state := wheel_state d |};
     lv_conv := to_u16 |}.

Definition pad_state_lv : lvalue :=
  {| lv_get := pad_state;
     lv_set := fun v d =>
       {| model := model d; buttons_state := buttons_state d;
          pad_state := v; wheel_state := wheel_state d |};
     lv_conv := to_u8 |}.

Definition wheel_state_lv : lvalue :=
  {| lv_get := wheel_state;
     lv_set := fun v d =>
       {| model := model d; buttons_state := buttons_state d;
          pad_state := pad_state d; wheel_state := v |};
     lv_conv := to_u8 |}.

(** [veikk_dev->f]. *)
Definition load (f : lvalue) : drv Z := fun d => (lv_get f d, d, []).

(** [(veikk_dev->f |= m)]: the operands are promoted to [int], the result is
    converted to the type of [f], stored, and is the value of the expression. *)
Definition or_assign (f : lvalue) (m : Z) : drv Z :=
  fun d =>
    let v := lv_conv f (Z.lor (lv_get f d) m) in
    (v, lv_set f v d, []).

(** [(veikk_dev->f &= ~m)]. *)
Definition and_not_assign (f : lvalue) (m : Z) : drv Z :=
  fun d =>
    let v := lv_conv f (Z.land (lv_get f d) (Z.lnot m)) in
    (v, lv_set f v d, []).

(** ** Event handlers *)

Definition veikk_pen_event (evt : veikk_pen_report_data) : drv Z :=
  input_report_abs ABS_X (get_unaligned_le16 (pen_x evt)) ;;
  input_report_abs ABS_Y (get_unaligned_le16 (pen_y evt)) ;;
  input_report_abs ABS_PRESSURE (get_unaligned_le16 (pen_pressure evt)) ;;
  input_report_key BTN_TOUCH (Z.land (byte_val (pen_btns evt)) 0x01) ;;
  input_report_key BTN_STYLUS (Z.land (byte_val (pen_btns evt)) 0x02) ;;
  input_report_key BTN_STYLUS2 (Z.land (byte_val (pen_btns evt)) 0x04) ;;
  ret 0.

Definition veikk_buttons_event (evt : veikk_buttons_report_data) : drv Z :=
  let event_buttons := get_unaligned_le16 (btn_btns evt) in
  '(buttons_state, wheel_state) <-
    (if byte_val (btn_type evt) =? 1 then
       buttons_state <-
         (if byte_val (btn_pressed evt) =? 0
          then and_not_assign buttons_state_lv event_buttons
          else or_assign buttons_state_lv event_buttons) ;;
       wheel_state <- load wheel_state_lv ;;
       ret (buttons_state, wheel_state)
     else
       buttons_state <- load buttons_state_lv ;;
       wheel_state <-
         (if byte_val (btn_pressed evt) =? 0
          then and_not_assign wheel_state_lv event_buttons
          else or_assign wheel_state_lv event_buttons) ;;
       ret (buttons_state, wheel_state)) ;;
  input_report_key BTN_0 (Z.land buttons_state 0x001) ;;
  input_report_key BTN_1 (Z.land buttons_state 0x002) ;;
  input_report_key BTN_2 (Z.land buttons_state 0x004) ;;
  input_report_key BTN_3 (Z.land buttons_state 0x008) ;;
  input_report_key BTN_4 (Z.land buttons_state 0x010) ;;
  input_report_key BTN_5 (Z.land buttons_state 0x020) ;;
  input_report_key BTN_6 (Z.land buttons_state 0x040) ;;
  input_report_key BTN_7 (Z.land buttons_state 0x080) ;;
  input_report_key BTN_8 (Z.land buttons_state 0x100) ;;
  input_report_key BTN_9 (Z.land buttons_state 0x200) ;;
  input_report_key (KEY_RAW 0x118) (Z.land buttons_state 0x400) ;;
  input_report_key (KEY_RAW 0x119) (Z.land buttons_state 0x800) ;;
  input_report_key BTN_WHEEL (Z.land buttons_state 0x1000) ;;
  input_report_key BTN_GEAR_DOWN (Z.land wheel_state 0x1) ;;
  input_report_key BTN_GEAR_UP (Z.land wheel_state 0x2) ;;
  ret 0.

Definition veikk_pad_event (evt : veikk_pad_report_data) : drv Z :=
  state <-
    (if byte_val (pad_pressed evt) =? 0
     then and_not_assign pad_state_lv (byte_val (pad_btns evt))
     else or_assign pad_state_lv (byte_val (pad_btns evt))) ;;
  input_report_key BTN_NORTH (Z.land state 0x01) ;;
  input_report_key BTN_SOUTH (Z.land state 0x02) ;;
  input_report_key BTN_WEST (Z.land state 0x04) ;;
  input_report_key BTN_EAST (Z.land state 0x08) ;;
  input_report_key BTN_TOOL_DOUBLETAP (Z.land state 0x10) ;;
  ret 0.

(** [struct hid_report], of which the driver reads only [id]. *)
Record hid_report := { id : Z }.

(** [veikk_raw_event].  The [hid_info] lines only write to the kernel log
    and are left out.  A handler returning non-zero makes the routine return
    [-EINVAL] before [input_sync]; [break] leads to [input_sync] and [1]. *)
Definition veikk_raw_event (report : hid_report) (data : list byte) (size : Z)
  : drv Z :=
  if negb (id report =? 9) || negb (size =? sizeof_veikk_report) then
    ret (- EINVAL)
  else
    let veikk_report := as_veikk_report data in
    let type := byte_val (rpt_type veikk_report) in
    if type =? VEIKK_PEN_REPORT then
      r <- veikk_pen_event (as_pen_report_data (rpt_data veikk_report)) ;;
      if r =? 0 then input_sync ;; ret 1 else ret (- EINVAL)
    else if type =? VEIKK_BUTTON_REPORT then
      r <- veikk_buttons_event (as_buttons_report_data (rpt_data veikk_report)) ;;
      if r =? 0 then input_sync ;; ret 1 else ret (- EINVAL)
    else if type =? VEIKK_PAD_REPORT then
      r <- veikk_pad_event (as_pad_report_data (rpt_data veikk_report)) ;;
      if r =? 0 then input_sync ;; ret 1 else ret (- EINVAL)
    else
      ret 0.

(** A sequence of reports delivered to the same device, each with its
    report id and size. *)
Fixpoint deliver (frames : list (hid_report * list byte * Z))
  : drv (list Z) :=
  match frames with
  | [] => ret []
  | (report, data, size) :: rest =>
      r <- veikk_raw_event report data size ;;
      rs <- deliver rest ;;
      ret (r :: rs)
  end.

(** ** Enabling the proprietary interfaces *)

Definition pen_output_report : list byte :=
  [x09; x01; x04; x00; x00; x00; x00; x00; x00].
Definition buttons_output_report : list byte :=
  [x09; x02; x02; x00; x00; x00; x00; x00; x00].
Definition pad_output_report : list byte :=
  [x09; x03; x02; x00; x00; x00; x00; x00; x00].

(** [memcpy(dst, src, n)]. *)
Definition memcpy (dst src : list byte) (n : nat) : list byte :=
  firstn n src ++ skipn n dst.

(** [veikk_setup_feature]: the return value, and the buffer handed to the
    transport's [output_report] when the routine gets that far.  [kzalloc_ok]
    tells whether [devm_kzalloc] returns a buffer. *)
Definition veikk_setup_feature (kzalloc_ok : bool) (device_type : Z)
  : Z * option (list byte) :=
  let buf_len := length pen_output_report in
  let selected :=
    if device_type =? 0 then Some pen_output_report
    else if device_type =? 1 then Some buttons_output_report
    else if device_type =? 2 then Some pad_output_report
    else None in
  match selected with
  | None => (- EINVAL, None)
  | Some output_report =>
      if kzalloc_ok then
        let buf := memcpy (repeat x00 buf_len) output_report buf_len in
        (0, Some buf)
      else (- ENOMEM, None)
  end.

(** The three work functions. *)
Inductive work_func := veikk_setup_pen | veikk_setup_buttons | veikk_setup_pad.

Definition run_work (kzalloc_ok : bool) (f : work_func) : Z * option (list byte) :=
  match f with
  | veikk_setup_pen => veikk_setup_feature kzalloc_ok 0
  | veikk_setup_buttons => veikk_setup_feature kzalloc_ok 1
  | veikk_setup_pad => veikk_setup_feature kzalloc_ok 2
  end.

(** One [schedule_delayed_work] call: the work function and its delay. *)
Record scheduled_work := { work : work_func; delay : Z }.

(** What the kernel answers during input set-up: whether
    [devm_input_allocate_device] and the [devm_kzalloc] of the input name
    return memory, and the status of [input_register_device]. *)
Record setup_outcomes := {
  input_allocated : bool;
  name_allocated : bool;
  input_register_status : Z
}.

(** [veikk_setup_bundled_inputs], status only (the capability bits it sets on
    the input device play no part below). *)
Definition veikk_setup_bundled_inputs (k : setup_outcomes) : Z :=
  if name_allocated k then 0 else - ENOMEM.

(** [veikk_register_input] returns what [input_register_device] returns. *)
Definition veikk_register_input (k : setup_outcomes) : Z :=
  input_register_status k.

(** [veikk_allocate_setup_register_inputs]: the return value and the
    [schedule_delayed_work] calls made, in order. *)
Definition veikk_allocate_setup_register_inputs
    (k : setup_outcomes) (veikk_dev : veikk_device) : Z * list scheduled_work :=
  if negb (input_allocated k) then (- ENOMEM, [])
  else
    let err := veikk_setup_bundled_inputs k in
    if negb (err =? 0) then (err, [])
    else
      let err := veikk_register_input k in
      if negb (err =? 0) then (err, [])
      else
        (0,
         [{| work := veikk_setup_pen; delay := 100 |}]
         ++ (if negb (has_buttons (model veikk_dev) =? 0)
             then [{| work := veikk_setup_buttons; delay := 200 |}] else [])
         ++ (if negb (has_pad (model veikk_dev) =? 0)
             then [{| work := veikk_setup_pad; delay := 300 |}] else [])).

(** ** The model table *)

Definition veikk_model_0x0001 : veikk_model :=
  {| name := "VEIKK S640"%string; prod_id := 0x0001;
     x_max := 30480; y_max := 20320; pressure_max := 8192;
     has_buttons := 0; has_pad := 0 |}.
Definition veikk_model_0x0002 : veikk_model :=
  {| name := "VEIKK A30"%string; prod_id := 0x0002;
     x_max := 32768; y_max := 32768; pressure_max := 8192;
     has_buttons := 1; has_pad := 1 |}.
Definition veikk_model_0x0003 : veikk_model :=
  {| name := "VEIKK A50"%string; prod_id := 0x0003;
     x_max := 50800; y_max := 30480; pressure_max := 8192;
     has_buttons := 1; has_pad := 1 |}.
Definition veikk_model_0x0004 : veikk_model :=
  {| name := "VEIKK A15"%string; prod_id := 0x0004;
     x_max := 32768; y_max := 32768; pressure_max := 8192;
     has_buttons := 1; has_pad := 1 |}.
Definition veikk_model_0x0006 : veikk_model :=
  {| name := "VEIKK A15 Pro"%string; prod_id := 0x0006;
     x_max := 32768; y_max := 32768; pressure_max := 8192;
     has_buttons := 1; has_pad := 1 |}.
Definition veikk_model_0x1001 : veikk_model :=
  {| name := "VEIKK VK1560"%string; prod_id := 0x1001;
     x_max := 34420; y_max := 19360; pressure_max := 8192;
     has_buttons := 1; has_pad := 0 |}.

(** ** Reading the bitmaps back *)

(** A descriptor whose bitmaps hold values of their C types. *)
Definition device_in_range (d : veikk_device) : Prop :=
  0 <= buttons_state d < 2 ^ 16 /\
  0 <= pad_state d < 2 ^ 8 /\
  0 <= wheel_state d < 2 ^ 8.

(** Which key is reported from which bit: the button bitmap carries the
    twelve numbered buttons and the wheel centre, the wheel bitmap the two
    wheel directions, the pad bitmap the four swipes and the double tap. *)
Definition button_domain_keys : list (key_code * Z) :=
  [ (BTN_0, 0x001); (BTN_1, 0x002); (BTN_2, 0x004); (BTN_3, 0x008);
    (BTN_4, 0x010); (BTN_5, 0x020); (BTN_6, 0x040); (BTN_7, 0x080);
    (BTN_8, 0x100); (BTN_9, 0x200);
    (KEY_RAW 0x118, 0x400); (KEY_RAW 0x119, 0x800);
    (BTN_WHEEL, 0x1000) ].

Definition wheel_domain_keys : list (key_code * Z) :=
  [ (BTN_GEAR_DOWN, 0x1); (BTN_GEAR_UP, 0x2) ].

Definition pad_domain_keys : list (key_code * Z) :=
  [ (BTN_NORTH, 0x01); (BTN_SOUTH, 0x02); (BTN_WEST, 0x04); (BTN_EAST, 0x08);
    (BTN_TOOL_DOUBLETAP, 0x10) ].

(** One key report per table entry, each with the bitmap masked by the
    entry's bit. *)
Definition report_keys (bitmap : Z) (keys : list (key_code * Z))
  : list input_call :=
  map (fun km => ReportKey (fst km) (Z.land bitmap (snd km))) keys.

(** The key reports of a buttons-class and of a pad-class frame, as
    functions of the descriptor. *)
Definition buttons_frame_keys (d : veikk_device) : list input_call :=
  report_keys (buttons_state d) button_domain_keys
  ++ report_keys (wheel_state d) wheel_domain_keys.

Definition pad_frame_keys (d : veikk_device) : list input_call :=
  report_keys (pad_state d) pad_domain_keys.

(** A key report shows the key down when the value passed is non-zero (the
    driver passes the masked bitmap, not 0 or 1). *)
Definition key_down (value : Z) : bool := negb (value =? 0).

(** The numeric codes behind the names, as [linux/input-event-codes.h]
    defines them; a raw code is itself.  [BTN_WHEEL] and [BTN_GEAR_DOWN] are
    two names of the one code [0x150]. *)
Definition key_code_value (k : key_code) : Z :=
  match k with
  | BTN_0 => 0x100 | BTN_1 => 0x101 | BTN_2 => 0x102 | BTN_3 => 0x103
  | BTN_4 => 0x104 | BTN_5 => 0x105 | BTN_6 => 0x106 | BTN_7 => 0x107
  | BTN_8 => 0x108 | BTN_9 => 0x109
  | KEY_RAW code => code
  | BTN_SOUTH => 0x130 | BTN_EAST => 0x131
  | BTN_NORTH => 0x133 | BTN_WEST => 0x134
  | BTN_TOUCH => 0x14a | BTN_STYLUS => 0x14b | BTN_STYLUS2 => 0x14c
  | BTN_TOOL_DOUBLETAP => 0x14d
  | BTN_WHEEL => 0x150 | BTN_GEAR_DOWN => 0x150 | BTN_GEAR_UP => 0x151
  end.

(** Two names are the same key when they are the same code. *)
Definition key_code_eqb (a b : key_code) : bool :=
  key_code_value a =? key_code_value b.

(** Number of [input_sync] calls in a list of calls. *)
Definition sync_count (out : list input_call) : nat :=
  length (filter (fun c => match c with Sync => true | _ => false end) out).

(** Mask with the single bit [i] set. *)
Definition bit (i : Z) : Z := Z.shiftl 1 i.

(** ** Delivery and sample frames *)

(** Modelled from the spec: the spec's [decode] takes the raw bytes only.
    The HID core, which is not part of the driver, looks the report up by the
    leading byte of the buffer and passes the buffer's length, so
    [report->id] is that byte and [size] is the length. *)
Definition decode (data : list byte) : drv Z :=
  veikk_raw_event {| id := byte_val (at_ data 0) |} data
    (Z.of_nat (length data)).

(** A handler's run followed by [input_sync] and [return 1]. *)
Definition synced (r : Z * veikk_device * list input_call)
  : Z * veikk_device * list input_call :=
  (1, device_after r, calls r ++ [Sync]).

(** Whether [veikk_raw_event] gets past its size and id test, and whether the
    type byte is one of the three report types. *)
Definition well_formed (report : hid_report) (size : Z) : bool :=
  (id report =? 9) && (size =? sizeof_veikk_report).
Definition known_type (data : list byte) : bool :=
  let type := byte_val (at_ data 1) in
  (type =? VEIKK_PEN_REPORT) || (type =? VEIKK_BUTTON_REPORT)
  || (type =? VEIKK_PAD_REPORT).

(** A wheel-group press whose mask has a bit above the low byte: the frame
    [09 42 03 01 00 01 00 00 00] on a freshly probed device. *)
Definition wheel_press_high_bit : list byte :=
  [x09; x42; x03; x01; x00; x01; x00; x00; x00].

(** Scenario frame: button group, pressed, bit 0. *)
Definition button0_press : list byte :=
  [x09; x42; x01; x01; x01; x00; x00; x00; x00].

(** Two button-group presses on a freshly probed device: the wheel centre
    (mask [0x1000]) and button 0 (mask [0x0001]). *)
Definition press_wheel_centre : veikk_buttons_report_data :=
  {| btn_type := x01; btn_pressed := x01; btn_btns := (x00, x10);
     btn_unused2 := [x00; x00; x00] |}.
Definition press_button0 : veikk_buttons_report_data :=
  {| btn_type := x01; btn_pressed := x01; btn_btns := (x01, x00);
     btn_unused2 := [x00; x00; x00] |}.

(** Writing a value below [2^16] as the two bytes of a little-endian
    field, and the buttons-class frame carrying a given mask. *)
Definition byte_of (z : Z) : byte :=
  match Byte.of_N (Z.to_N z) with
  | Some b => b
  | None => x00
  end.

Definition le16_bytes (m : Z) : byte * byte :=
  (byte_of (m mod 2 ^ 8), byte_of (m / 2 ^ 8 mod 2 ^ 8)).

Definition buttons_frame (type pressed : byte) (mask : Z) : list byte :=
  [x09; x42; type; pressed; fst (le16_bytes mask); snd (le16_bytes mask);
   x00; x00; x00].

(** Button-group press and release of the single bit [i], as delivered. *)
Definition press_bit (i : Z) : hid_report * list byte * Z :=
  ({| id := 9 |}, buttons_frame x01 x01 (bit i), 9).
Definition release_bit (i : Z) : hid_report * list byte * Z :=
  ({| id := 9 |}, buttons_frame x01 x00 (bit i), 9).

(** A model with a gesture pad and no buttons (none of the six listed
    models is like this). *)
Definition pad_only_model : veikk_model :=
  {| name := "pad only"%string; prod_id := 0;
     x_max := 32768; y_max := 32768; pressure_max := 8192;
     has_buttons := 0; has_pad := 1 |}.

(** The kernel answering every set-up call with success. *)
Definition setup_succeeds : setup_outcomes :=
  {| input_allocated := true; name_allocated := true;
     input_register_status := 0 |}.

(** ** The proprietary interface *)

(** [veikk_is_proprietary]: [rdesc] is the device's report descriptor and
    [rsize] its length; the three bytes are compared only when
    [rsize >= 3]. *)
Definition veikk_is_proprietary (rdesc : list byte) : bool :=
  let rsize := Z.of_nat (length rdesc) in
  (3 <=? rsize)
  && (byte_val (at_ rdesc 0) =? 0x06)
  && (byte_val (at_ rdesc 1) =? 0x0A)
  && (byte_val (at_ rdesc 2) =? 0xFF).

(** ** Capabilities of the input device *)

(** Event types, properties and miscellaneous codes the driver names. *)
Inductive ev_type := EV_KEY | EV_ABS | EV_REP.
Inductive input_prop := INPUT_PROP_POINTER.
Inductive msc_code := MSC_SCAN.

(** [struct input_absinfo], the members the driver sets. *)
Record input_absinfo := {
  minimum : Z;
  maximum : Z;
  fuzz : Z;
  flat : Z;
  resolution : Z
}.

(** [struct input_dev], the members the set-up routines write: the name,
    the capability bitmaps (as the lists of the bits set), the axis
    parameters and the soft-repeat delay and period. *)
Record input_dev := {
  input_name : option string;
  propbit : list input_prop;
  evbit : list ev_type;
  mscbit : list msc_code;
  keybit : list key_code;
  absbit : list abs_code;
  absinfo : abs_code -> input_absinfo;
  rep : option (Z * Z)
}.

(** The device as [devm_input_allocate_device] returns it: zero-filled. *)
Definition allocated_input_dev : input_dev :=
  {| input_name := None; propbit := []; evbit := []; mscbit := [];
     keybit := []; absbit := [];
     absinfo := fun _ => {| minimum := 0; maximum := 0; fuzz := 0;
                            flat := 0; resolution := 0 |};
     rep := None |}.

Definition abs_code_eqb (a b : abs_code) : bool :=
  match a, b with
  | ABS_X, ABS_X | ABS_Y, ABS_Y | ABS_PRESSURE, ABS_PRESSURE => true
  | _, _ => false
  end.

Definition set_input_name (n : string) (i : input_dev) : input_dev :=
  {| input_name := Some n; propbit := propbit i; evbit := evbit i;
     mscbit := mscbit i; keybit := keybit i; absbit := absbit i;
     absinfo := absinfo i; rep := rep i |}.

(** [__set_bit(bit, input->propbit)] and its siblings. *)
Definition set_propbit (b : input_prop) (i : input_dev) : input_dev :=
  {| input_name := input_name i; propbit := b :: propbit i; evbit := evbit i;
     mscbit := mscbit i; keybit := keybit i; absbit := absbit i;
     absinfo := absinfo i; rep := rep i |}.
Definition set_evbit (b : ev_type) (i : input_dev) : input_dev :=
  {| input_name := input_name i; propbit := propbit i; evbit := b :: evbit i;
     mscbit := mscbit i; keybit := keybit i; absbit := absbit i;
     absinfo := absinfo i; rep := rep i |}.
Definition set_mscbit (b : msc_code) (i : input_dev) : input_dev :=
  {| input_name := input_name i; propbit := propbit i; evbit := evbit i;
     mscbit := b :: mscbit i; keybit := keybit i; absbit := absbit i;
     absinfo := absinfo i; rep := rep i |}.
Definition set_keybit (b : key_code) (i : input_dev) : input_dev :=
  {| input_name := input_name i; propbit := propbit i; evbit := evbit i;
     mscbit := mscbit i; keybit := b :: keybit i; absbit := absbit i;
     absinfo := absinfo i; rep := rep i |}.

(** Modelled from the spec: [input_set_abs_params], [input_abs_set_res] and
    [input_enable_softrepeat] belong to the kernel's input core, not to the
    driver.  The first gives the axis its range ("range = model maxima"),
    fuzz and flat and marks the axis and [EV_ABS] as supported; the second
    sets the axis' reporting resolution; the third stores the repeat delay
    and period. *)
Definition input_set_abs_params (axis : abs_code) (min max fz fl : Z)
    (i : input_dev) : input_dev :=
  {| input_name := input_name i; propbit := propbit i;
     evbit := EV_ABS :: evbit i;
     mscbit := mscbit i; keybit := keybit i; absbit := axis :: absbit i;
     absinfo := fun a =>
       if abs_code_eqb a axis
       then {| minimum := min; maximum := max; fuzz := fz; flat := fl;
               resolution := resolution (absinfo i a) |}
       else absinfo i a;
     rep := rep i |}.

Definition input_abs_set_res (axis : abs_code) (res : Z) (i : input_dev)
  : input_dev :=
  {| input_name := input_name i; propbit := propbit i; evbit := evbit i;
     mscbit := mscbit i; keybit := keybit i; absbit := absbit i;
     absinfo := fun a =>
       if abs_code_eqb a axis
       then {| minimum := minimum (absinfo i a);
               maximum := maximum (absinfo i a);
               fuzz := fuzz (absinfo i a); flat := flat (absinfo i a);
               resolution := res |}
       else absinfo i a;
     rep := rep i |}.

Definition input_enable_softrepeat (delay period : Z) (i : input_dev)
  : input_dev :=
  {| input_name := input_name i; propbit := propbit i; evbit := evbit i;
     mscbit := mscbit i; keybit := keybit i; absbit := absbit i;
     absinfo := absinfo i; rep := Some (delay, period) |}.

(** Running set-up steps in program order. *)
Definition steps (ops : list (input_dev -> input_dev)) (i : input_dev)
  : input_dev :=
  fold_left (fun acc op => op acc) ops i.

(** The sizes passed to [devm_kzalloc] for the two input names and the
    strings [sprintf] writes into them. *)
Definition pen_name_size (model : veikk_model) : Z :=
  Z.of_nat (String.length (name model)) + 5.
Definition pen_name (model : veikk_model) : string :=
  (name model ++ " Pen")%string.
Definition bundled_name_size (model : veikk_model) : Z :=
  Z.of_nat (String.length (name model)) + 9.
Definition bundled_name (model : veikk_model) : string :=
  (name model ++ " Bundled")%string.

(** [veikk_setup_pen_input], with its effect on the input device;
    [name_ok] tells whether the [devm_kzalloc] of the name succeeds. *)
Definition veikk_setup_pen_input (name_ok : bool) (model : veikk_model)
    (input : input_dev) : Z * input_dev :=
  if negb name_ok then (- ENOMEM, input)
  else
    (0,
     steps
       [ set_input_name (pen_name model);
         set_propbit INPUT_PROP_POINTER;
         set_evbit EV_KEY;
         set_evbit EV_ABS;
         set_keybit BTN_TOUCH;
         set_keybit BTN_STYLUS;
         set_keybit BTN_STYLUS2;
         input_set_abs_params ABS_X 0 (x_max model) 0 0;
         input_set_abs_params ABS_Y 0 (y_max model) 0 0;
         input_set_abs_params ABS_PRESSURE 0 (pressure_max model) 0 0;
         input_abs_set_res ABS_X 100;
         input_abs_set_res ABS_Y 100 ] input).

(** [veikk_setup_bundled_inputs], with its effect on the input device (the
    status alone is [veikk_setup_bundled_inputs] above). *)
Definition veikk_setup_bundled_inputs_dev (k : setup_outcomes)
    (model : veikk_model) (input : input_dev) : Z * input_dev :=
  if negb (name_allocated k) then (- ENOMEM, input)
  else
    (0,
     steps
       [ set_input_name (bundled_name model);
         set_evbit EV_KEY;
         set_evbit EV_ABS;
         set_evbit EV_REP;
         set_mscbit MSC_SCAN;
         set_keybit BTN_TOUCH;
         set_keybit BTN_STYLUS;
         set_keybit BTN_STYLUS2;
         input_set_abs_params ABS_X 0 (x_max model) 0 0;
         input_set_abs_params ABS_Y 0 (y_max model) 0 0;
         input_set_abs_params ABS_PRESSURE 0 (pressure_max model) 0 0;
         input_abs_set_res ABS_X 100;
         input_abs_set_res ABS_Y 100;
         set_keybit BTN_0; set_keybit BTN_1; set_keybit BTN_2;
         set_keybit BTN_3; set_keybit BTN_4; set_keybit BTN_5;
         set_keybit BTN_6; set_keybit BTN_7; set_keybit BTN_8;
         set_keybit BTN_9;
         set_keybit (KEY_RAW 0x118); set_keybit (KEY_RAW 0x119);
         set_keybit BTN_WHEEL; set_keybit BTN_GEAR_DOWN;
         set_keybit BTN_GEAR_UP;
         input_enable_softrepeat 100 33;
         set_keybit BTN_TOOL_DOUBLETAP;
         set_keybit BTN_NORTH; set_keybit BTN_SOUTH;
         set_keybit BTN_WEST; set_keybit BTN_EAST ] input).

(** Whether a call on the input device names a key or an axis that the
    device declares, together with its event type. *)
Definition ev_type_eqb (a b : ev_type) : bool :=
  match a, b with
  | EV_KEY, EV_KEY | EV_ABS, EV_ABS | EV_REP, EV_REP => true
  | _, _ => false
  end.

Definition declares (i : input_dev) (c : input_call) : bool :=
  match c with
  | ReportKey k _ =>
      existsb (ev_type_eqb EV_KEY) (evbit i) && existsb (key_code_eqb k) (keybit i)
  | ReportAbs a _ =>
      existsb (ev_type_eqb EV_ABS) (evbit i) && existsb (abs_code_eqb a) (absbit i)
  | Sync => true
  end.

(** ** Probe and remove *)

(** What the kernel answers during probe. *)
Record probe_outcomes := {
  descriptor_allocated : bool;
  hid_parse_status : Z;
  setup : setup_outcomes;
  hid_hw_start_status : Z
}.

(** What probe leaves behind: its return value, the driver data of the HID
    device, the works scheduled, and whether the hardware was started. *)
Record probe_result := {
  probe_status : Z;
  drvdata : option veikk_device;
  probe_scheduled : list scheduled_work;
  hw_started : bool
}.

(** [veikk_probe]; [driver_data] is [id->driver_data], the model the
    matching table entry points to, if any. *)
Definition veikk_probe (rdesc : list byte) (driver_data : option veikk_model)
    (k : probe_outcomes) : probe_result :=
  if negb (veikk_is_proprietary rdesc) then
    {| probe_status := 0; drvdata := None; probe_scheduled := [];
       hw_started := false |}
  else
    match driver_data with
    | None =>
        {| probe_status := - EINVAL; drvdata := None; probe_scheduled := [];
           hw_started := false |}
    | Some m =>
        if negb (descriptor_allocated k) then
          {| probe_status := - ENOMEM; drvdata := None; probe_scheduled := [];
             hw_started := false |}
        else
          let veikk_dev := probed_device m in
          let err := hid_parse_status k in
          if negb (err =? 0) then
            {| probe_status := err; drvdata := Some veikk_dev;
               probe_scheduled := []; hw_started := false |}
          else
            let err := fst (veikk_allocate_setup_register_inputs (setup k) veikk_dev) in
            let scheduled :=
              snd (veikk_allocate_setup_register_inputs (setup k) veikk_dev) in
            if negb (err =? 0) then
              {| probe_status := err; drvdata := Some veikk_dev;
                 probe_scheduled := scheduled; hw_started := false |}
            else
              let err := hid_hw_start_status k in
              if negb (err =? 0) then
                {| probe_status := err; drvdata := Some veikk_dev;
                   probe_scheduled := scheduled; hw_started := false |}
              else
                {| probe_status := 0; drvdata := Some veikk_dev;
                   probe_scheduled := scheduled; hw_started := true |}
    end.

(** [veikk_remove]: whether [hid_hw_stop] is called. *)
Definition veikk_remove (rdesc : list byte) (veikk_dev : option veikk_device)
  : bool :=
  if negb (veikk_is_proprietary rdesc) then false
  else
    match veikk_dev with
    | Some _ => true
    | None => false
    end.

(** ** Reading sequences of frames *)

(** The three bitmaps. *)
Inductive domain := ButtonDomain | WheelDomain | PadDomain.

Definition domain_state (dm : domain) (d : veikk_device) : Z :=
  match dm with
  | ButtonDomain => buttons_state d
  | WheelDomain => wheel_state d
  | PadDomain => pad_state d
  end.

Definition domain_width (dm : domain) : Z :=
  match dm with
  | ButtonDomain => 16
  | WheelDomain => 8
  | PadDomain => 8
  end.

(** What a delivered frame says about bit [i] of a bitmap: [Some true] when
    it presses it, [Some false] when it releases it, [None] when it does not
    mention it (the frame is rejected, is of another type or sub-type, or
    its mask does not have the bit).  Offsets are those of the buffer:
    byte 1 is the type; in a buttons frame byte 2 is the sub-type, byte 3
    the pressed flag, bytes 4 and 5 the mask; in a pad frame byte 2 is the
    pressed flag and byte 3 the mask. *)
Definition frame_touch (dm : domain) (f : hid_report * list byte * Z) (i : Z)
  : option bool :=
  let '(report, data, size) := f in
  let type := byte_val (at_ data 1) in
  let touches :=
    match dm with
    | ButtonDomain =>
        (type =? VEIKK_BUTTON_REPORT) && (byte_val (at_ data 2) =? 1)
        && Z.testbit (get_unaligned_le16 (at_ data 4, at_ data 5)) i
    | WheelDomain =>
        (type =? VEIKK_BUTTON_REPORT) && negb (byte_val (at_ data 2) =? 1)
        && Z.testbit (get_unaligned_le16 (at_ data 4, at_ data 5)) i
    | PadDomain =>
        (type =? VEIKK_PAD_REPORT) && Z.testbit (byte_val (at_ data 3)) i
    end in
  let pressed :=
    match dm with
    | ButtonDomain | WheelDomain => negb (byte_val (at_ data 3) =? 0)
    | PadDomain => negb (byte_val (at_ data 2) =? 0)
    end in
  if well_formed report size && touches then Some pressed else None.

(** The last frame of a sequence that mentions bit [i] decides it; [init] is
    the bit before the sequence. *)
Definition last_touch (dm : domain) (i : Z)
    (frames : list (hid_report * list byte * Z)) (init : bool) : bool :=
  fold_left
    (fun b f => match frame_touch dm f i with Some p => p | None => b end)
    frames init.

(** The stylus keys of a pen frame and the bits of the flags byte they are
    read from. *)
Definition stylus_keys : list (key_code * Z) :=
  [ (BTN_TOUCH, 0x01); (BTN_STYLUS, 0x02); (BTN_STYLUS2, 0x04) ].

(** Every [input_report_key] call of the driver: the key and the mask its
    value is taken through. *)
Definition key_reads : list (key_code * Z) :=
  stylus_keys ++ button_domain_keys ++ wheel_domain_keys ++ pad_domain_keys.

(** The masks a key is read through.  Keys are compared by code, so the key
    [0x150] has the two masks [0x1000] (as [BTN_WHEEL], from the button
    bitmap) and [0x1] (as [BTN_GEAR_DOWN], from the wheel bitmap); every
    other key of the driver has one. *)
Definition key_masks (k : key_code) : list Z :=
  map snd (filter (fun km => key_code_eqb k (fst km)) key_reads).

(** Bounds on what a call on the input device carries: a key value is [0]
    or one of the masks of that key, an axis value fits sixteen bits. *)
Definition call_in_bounds (c : input_call) : Prop :=
  match c with
  | ReportKey k v => v = 0 \/ In v (key_masks k)
  | ReportAbs _ v => 0 <= v < 2 ^ 16
  | Sync => True
  end.

(** Membership in the capability lists of a set-up device, call by call. *)
Ltac named_in := vm_compute; repeat first [left; reflexivity | right].
Ltac named_calls :=
  repeat (apply Forall_cons; [first [exact I | split; named_in] |]);
  apply Forall_nil.

(** * Properties *)

(** ** Machine integers *)

Section MachineIntegers.

Lemma byte_val_range (b : byte) : 0 <= byte_val b < 2 ^ 8.
Proof.
  unfold byte_val. pose proof (Byte.to_N_bounded b) as Hb.
  change (2 ^ 8) with 256. lia.
Qed.

Lemma bits_above_width (a n i : Z) :
  0 <= a < 2 ^ n -> n <= i -> Z.testbit a i = false.
Proof.
  intros Ha Hi.
  destruct (Z.lt_ge_cases n 0) as [Hn | Hn].
  - rewrite Z.pow_neg_r in Ha by assumption. lia.
  - rewrite <- (Z.mod_small a (2 ^ n)) by assumption.
    apply Z.mod_pow2_bits_high. lia.
Qed.

Lemma lor_mod_pow2 (a b n : Z) :
  0 <= n -> Z.lor a b mod 2 ^ n = Z.lor (a mod 2 ^ n) (b mod 2 ^ n).
Proof.
  intros Hn. rewrite <- !Z.land_ones by assumption.
  apply Z.land_lor_distr_l.
Qed.

Lemma land_mod_pow2_l (a b n : Z) :
  0 <= n -> Z.land a b mod 2 ^ n = Z.land (a mod 2 ^ n) b.
Proof.
  intros Hn. rewrite <- !Z.land_ones by assumption.
  rewrite <- !Z.land_assoc. f_equal. apply Z.land_comm.
Qed.

Lemma lnot_mod_pow2_under_land (a m n : Z) :
  0 <= n -> 0 <= a < 2 ^ n ->
  Z.land a (Z.lnot (m mod 2 ^ n)) = Z.land a (Z.lnot m).
Proof.
  intros Hn Ha. apply Z.bits_inj'. intros i Hi.
  rewrite !Z.land_spec, !Z.lnot_spec by assumption.
  destruct (Z.lt_ge_cases i n) as [Hlt | Hge].
  - rewrite Z.mod_pow2_bits_low by lia. reflexivity.
  - rewrite (bits_above_width a n i) by assumption. reflexivity.
Qed.

(** A stored OR of two in-range values is their OR. *)
Lemma lor_in_range (a b n : Z) :
  0 <= n -> 0 <= a < 2 ^ n -> 0 <= b < 2 ^ n ->
  Z.lor a b mod 2 ^ n = Z.lor a b.
Proof.
  intros Hn Ha Hb. rewrite lor_mod_pow2 by assumption.
  rewrite !Z.mod_small by assumption. reflexivity.
Qed.

(** A stored AND-NOT of an in-range value is the AND-NOT itself. *)
Lemma land_lnot_in_range (a m n : Z) :
  0 <= n -> 0 <= a < 2 ^ n ->
  Z.land a (Z.lnot m) mod 2 ^ n = Z.land a (Z.lnot m).
Proof.
  intros Hn Ha. rewrite land_mod_pow2_l by assumption.
  rewrite Z.mod_small by assumption. reflexivity.
Qed.

Lemma mod_pow2_range (a n : Z) : 0 <= n -> 0 <= a mod 2 ^ n < 2 ^ n.
Proof. intros Hn. apply Z.mod_pos_bound. apply Z.pow_pos_nonneg; lia. Qed.

(** The two bytes of a field do not overlap. *)
Lemma le16_no_overlap (lo hi : byte) :
  Z.land (byte_val lo) (Z.shiftl (byte_val hi) 8) = 0.
Proof.
  apply Z.bits_inj'. intros i Hi.
  rewrite Z.land_spec, Z.bits_0.
  destruct (Z.lt_ge_cases i 8) as [Hlt | Hge].
  - rewrite Z.shiftl_spec by assumption.
    rewrite (Z.testbit_neg_r _ (i - 8)) by lia. apply andb_false_r.
  - rewrite (bits_above_width (byte_val lo) 8 i (byte_val_range lo) Hge).
    reflexivity.
Qed.

Lemma le16_value (p : byte * byte) :
  get_unaligned_le16 p = byte_val (fst p) + 2 ^ 8 * byte_val (snd p).
Proof.
  unfold get_unaligned_le16. destruct p as [lo hi]; cbn [fst snd].
  pose proof (Z.add_lor_land (byte_val lo) (Z.shiftl (byte_val hi) 8)) as Hsum.
  rewrite le16_no_overlap, Z.add_0_r in Hsum. rewrite Hsum.
  rewrite Z.shiftl_mul_pow2 by lia. f_equal. apply Z.mul_comm.
Qed.

Lemma le16_range (p : byte * byte) : 0 <= get_unaligned_le16 p < 2 ^ 16.
Proof.
  rewrite le16_value.
  pose proof (byte_val_range (fst p)). pose proof (byte_val_range (snd p)).
  change (2 ^ 8) with 256 in *. change (2 ^ 16) with 65536. lia.
Qed.

Lemma le16_low_byte (p : byte * byte) :
  get_unaligned_le16 p mod 2 ^ 8 = byte_val (fst p).
Proof.
  rewrite le16_value. pose proof (byte_val_range (fst p)) as Hlo.
  rewrite (Z.mul_comm (2 ^ 8)), Z.mod_add by (change (2 ^ 8) with 256; lia).
  apply Z.mod_small. assumption.
Qed.

(** A mask and a non-zero test: the value the driver passes for bit [i]
    shows the key down exactly when bit [i] is set. *)
Lemma key_down_land_bit (s i : Z) :
  0 <= i -> key_down (Z.land s (2 ^ i)) = Z.testbit s i.
Proof.
  intros Hi. unfold key_down.
  destruct (Z.testbit s i) eqn:Hb.
  - assert (Hne : Z.land s (2 ^ i) <> 0).
    { intros Hz. apply (f_equal (fun z => Z.testbit z i)) in Hz.
      rewrite Z.land_spec, Hb, Z.pow2_bits_true, Z.bits_0 in Hz by assumption.
      discriminate. }
    apply Z.eqb_neq in Hne. rewrite Hne. reflexivity.
  - assert (Hz : Z.land s (2 ^ i) = 0).
    { apply Z.bits_inj'. intros j Hj.
      rewrite Z.land_spec, Z.bits_0, Z.pow2_bits_eqb by assumption.
      destruct (Z.eqb_spec i j) as [-> | _].
      - rewrite Hb. reflexivity.
      - apply andb_false_r. }
    rewrite Hz. reflexivity.
Qed.

End MachineIntegers.

(** ** The bitmap merge *)

Section Merge.

Variable d : veikk_device.

(** The handlers never fail and report the bitmaps as stored. *)
Lemma buttons_event_reports_stored (evt : veikk_buttons_report_data) :
  result (veikk_buttons_event evt d) = 0 /\
  calls (veikk_buttons_event evt d)
  = buttons_frame_keys (device_after (veikk_buttons_event evt d)).
Proof.
  unfold veikk_buttons_event, bind.
  destruct (byte_val (btn_type evt) =? 1);
    destruct (byte_val (btn_pressed evt) =? 0); split; reflexivity.
Qed.

Lemma pad_event_reports_stored (evt : veikk_pad_report_data) :
  result (veikk_pad_event evt d) = 0 /\
  calls (veikk_pad_event evt d)
  = pad_frame_keys (device_after (veikk_pad_event evt d)).
Proof.
  unfold veikk_pad_event, bind.
  destruct (byte_val (pad_pressed evt) =? 0); split; reflexivity.
Qed.

(** The descriptor after a button-group frame. *)
Lemma buttons_event_button_group (evt : veikk_buttons_report_data) :
  byte_val (btn_type evt) = 1 ->
  device_after (veikk_buttons_event evt d)
  = lv_set buttons_state_lv
      (to_u16 (if byte_val (btn_pressed evt) =? 0
               then Z.land (buttons_state d)
                      (Z.lnot (get_unaligned_le16 (btn_btns evt)))
               else Z.lor (buttons_state d)
                      (get_unaligned_le16 (btn_btns evt)))) d.
Proof.
  intros Ht. unfold veikk_buttons_event, bind. rewrite Ht. cbn [Z.eqb Pos.eqb].
  destruct (byte_val (btn_pressed evt) =? 0); reflexivity.
Qed.

(** The descriptor after a wheel-group frame. *)
Lemma buttons_event_wheel_group (evt : veikk_buttons_report_data) :
  byte_val (btn_type evt) <> 1 ->
  device_after (veikk_buttons_event evt d)
  = lv_set wheel_state_lv
      (to_u8 (if byte_val (btn_pressed evt) =? 0
              then Z.land (wheel_state d)
                     (Z.lnot (get_unaligned_le16 (btn_btns evt)))
              else Z.lor (wheel_state d)
                     (get_unaligned_le16 (btn_btns evt)))) d.
Proof.
  intros Ht. apply Z.eqb_neq in Ht.
  unfold veikk_buttons_event, bind. rewrite Ht.
  destruct (byte_val (btn_pressed evt) =? 0); reflexivity.
Qed.

Lemma pad_event_device (evt : veikk_pad_report_data) :
  device_after (veikk_pad_event evt d)
  = lv_set pad_state_lv
      (to_u8 (if byte_val (pad_pressed evt) =? 0
              then Z.land (pad_state d) (Z.lnot (byte_val (pad_btns evt)))
              else Z.lor (pad_state d) (byte_val (pad_btns evt)))) d.
Proof.
  unfold veikk_pad_event, bind.
  destruct (byte_val (pad_pressed evt) =? 0); reflexivity.
Qed.

(** Stores keep the bitmaps within their types. *)
Lemma buttons_event_in_range (evt : veikk_buttons_report_data) :
  device_in_range d -> device_in_range (device_after (veikk_buttons_event evt d)).
Proof.
  intros (Hb & Hp & Hw).
  destruct (Z.eq_dec (byte_val (btn_type evt)) 1) as [Ht | Ht].
  - rewrite (buttons_event_button_group evt Ht).
    repeat split; cbn; try tauto; apply mod_pow2_range; lia.
  - rewrite (buttons_event_wheel_group evt Ht).
    repeat split; cbn; try tauto; apply mod_pow2_range; lia.
Qed.

Lemma pad_event_in_range (evt : veikk_pad_report_data) :
  device_in_range d -> device_in_range (device_after (veikk_pad_event evt d)).
Proof.
  intros (Hb & Hp & Hw). rewrite pad_event_device.
  repeat split; cbn; try tauto; apply mod_pow2_range; lia.
Qed.

End Merge.

(** C1, as stated, fails in the wheel domain: the incoming mask is the
    16-bit field [0x0100], the wheel bitmap is a [u8], and the stored value
    is not [S | m]: it stays [0] while [S | m] is [0x0100]. *)
Lemma wheel_press_does_not_store_plain_or :
  let d := probed_device veikk_model_0x0002 in
  let m := get_unaligned_le16 (at_ wheel_press_high_bit 4, at_ wheel_press_high_bit 5) in
  let r := veikk_raw_event {| id := 9 |} wheel_press_high_bit 9 d in
  m = 0x0100 /\
  result r = 1 /\
  wheel_state (device_after r) = 0 /\
  Z.lor (wheel_state d) m = 0x0100 /\
  wheel_state (device_after r) <> Z.lor (wheel_state d) m.
Proof.
  vm_compute. repeat split; try reflexivity. discriminate.
Qed.

(** C1 (amended): for a buttons-class or pad-class frame applied to a
    descriptor whose bitmaps are in range, the selected bitmap [S] becomes
    [S | m] on a press and [S & ~m] on a release, where in the wheel domain
    the OR is reduced modulo [2^8] by the store into the [u8] bitmap (for the
    button and pad bitmaps the store changes nothing); every key report of
    the frame is computed from the bitmaps as stored after the update; and on
    a freshly probed device the frame "button group, pressed, mask 0x0001"
    leaves [buttons_state = 0x0001], reports button 0 down and every other
    key up. *)
Theorem merge_stores_and_reports_selected_bitmap :
  forall (d : veikk_device) (bevt : veikk_buttons_report_data)
         (pevt : veikk_pad_report_data) (mdl : veikk_model),
    device_in_range d ->
    let m := get_unaligned_le16 (btn_btns bevt) in
    let pm := byte_val (pad_btns pevt) in
    let rb := veikk_buttons_event bevt d in
    let rp := veikk_pad_event pevt d in
    let fresh := veikk_raw_event {| id := 9 |} button0_press 9 (probed_device mdl) in
    (if byte_val (btn_type bevt) =? 1 then
       buttons_state (device_after rb)
       = (if byte_val (btn_pressed bevt) =? 0
          then Z.land (buttons_state d) (Z.lnot m)
          else Z.lor (buttons_state d) m)
     else
       wheel_state (device_after rb)
       = (if byte_val (btn_pressed bevt) =? 0
          then Z.land (wheel_state d) (Z.lnot m)
          else Z.lor (wheel_state d) m mod 2 ^ 8)) /\
    calls rb = buttons_frame_keys (device_after rb) /\
    pad_state (device_after rp)
    = (if byte_val (pad_pressed pevt) =? 0
       then Z.land (pad_state d) (Z.lnot pm)
       else Z.lor (pad_state d) pm) /\
    calls rp = pad_frame_keys (device_after rp) /\
    device_in_range (device_after rb) /\
    device_in_range (device_after rp) /\
    buttons_state (device_after fresh) = 0x0001 /\
    calls fresh
    = [ ReportKey BTN_0 1; ReportKey BTN_1 0; ReportKey BTN_2 0;
        ReportKey BTN_3 0; ReportKey BTN_4 0; ReportKey BTN_5 0;
        ReportKey BTN_6 0; ReportKey BTN_7 0; ReportKey BTN_8 0;
        ReportKey BTN_9 0; ReportKey (KEY_RAW 0x118) 0;
        ReportKey (KEY_RAW 0x119) 0; ReportKey BTN_WHEEL 0;
        ReportKey BTN_GEAR_DOWN 0; ReportKey BTN_GEAR_UP 0; Sync ].
Proof.
  intros d bevt pevt mdl Hd m pm rb rp fresh.
  pose proof Hd as (Hb & Hp & Hw).
  pose proof (le16_range (btn_btns bevt)) as Hm. fold m in Hm.
  pose proof (byte_val_range (pad_btns pevt)) as Hpm. fold pm in Hpm.
  split; [| split; [| split; [| split; [| split; [| split; [| split]]]]]].
  - destruct (Z.eqb_spec (byte_val (btn_type bevt)) 1) as [Ht | Ht]; subst rb.
    + rewrite (buttons_event_button_group d bevt Ht). cbn. fold m. unfold to_u16.
      destruct (byte_val (btn_pressed bevt) =? 0).
      * apply land_lnot_in_range; [lia | assumption].
      * apply lor_in_range; [lia | assumption | assumption].
    + rewrite (buttons_event_wheel_group d bevt Ht). cbn. fold m. unfold to_u8.
      destruct (byte_val (btn_pressed bevt) =? 0).
      * apply land_lnot_in_range; [lia | assumption].
      * reflexivity.
  - apply buttons_event_reports_stored.
  - subst rp. rewrite pad_event_device. cbn. fold pm. unfold to_u8.
    destruct (byte_val (pad_pressed pevt) =? 0).
    + apply land_lnot_in_range; [lia | assumption].
    + apply lor_in_range; [lia | assumption | assumption].
  - apply pad_event_reports_stored.
  - apply buttons_event_in_range; assumption.
  - apply pad_event_in_range; assumption.
  - reflexivity.
  - reflexivity.
Qed.

(** The amended C1 on a device holding buttons 2 and 0 and wheel bit 0, for a
    wheel-group press with mask [0x0102] and a pad release of bit 0. *)
Lemma merge_stores_and_reports_selected_bitmap_witness :
  let d := {| model := veikk_model_0x0002; buttons_state := 5;
              pad_state := 3; wheel_state := 1 |} in
  let bevt := {| btn_type := x03; btn_pressed := x01; btn_btns := (x02, x01);
                 btn_unused2 := [x00; x00; x00] |} in
  let pevt := {| pad_pressed := x00; pad_btns := x01;
                 pad_unused := [x00; x00; x00; x00; x00] |} in
  device_in_range d /\
  wheel_state (device_after (veikk_buttons_event bevt d))
  = Z.lor 1 (get_unaligned_le16 (x02, x01)) mod 2 ^ 8 /\
  pad_state (device_after (veikk_pad_event pevt d)) = Z.land 3 (Z.lnot 1).
Proof.
  intros d bevt pevt.
  assert (Hd : device_in_range d) by (unfold device_in_range; cbn; lia).
  split; [exact Hd |].
  destruct (merge_stores_and_reports_selected_bitmap
              d bevt pevt veikk_model_0x0002 Hd)
    as (Hsel & _ & Hpad & _).
  split; [exact Hsel | exact Hpad].
Defined.

(** C2: a buttons-class frame with sub-type byte 1 leaves [wheel_state] as it
    was, a frame with any other sub-type byte leaves [buttons_state] as it
    was, and neither changes [pad_state] (nor the model). *)
Theorem buttons_frame_domains_independent :
  forall (evt : veikk_buttons_report_data) (d : veikk_device),
    let d' := device_after (veikk_buttons_event evt d) in
    (if byte_val (btn_type evt) =? 1
     then wheel_state d' = wheel_state d
     else buttons_state d' = buttons_state d) /\
    pad_state d' = pad_state d /\
    model d' = model d.
Proof.
  intros evt d d'. subst d'.
  destruct (Z.eqb_spec (byte_val (btn_type evt)) 1) as [Ht | Ht].
  - rewrite (buttons_event_button_group d evt Ht). cbn. auto.
  - rewrite (buttons_event_wheel_group d evt Ht). cbn. auto.
Qed.

(** C3, as stated, fails on the count: pressing the wheel centre on a
    freshly probed device makes the fifteen calls listed here, not
    13 + 1 + 2, so the calls are not thirteen button reports followed by one
    wheel-centre report and two wheel-direction reports.  The call written
    with [BTN_WHEEL] is the thirteenth of the button bitmap; it carries
    [0x1000] while [wheel_state] is [0]; [BTN_WHEEL] and [BTN_GEAR_DOWN],
    the next call, are the same key code. *)
Lemma buttons_frame_makes_fifteen_calls_not_sixteen :
  let d := probed_device veikk_model_0x0002 in
  let r1 := veikk_buttons_event press_wheel_centre d in
  let r2 := veikk_buttons_event press_button0 d in
  calls r1
  = [ ReportKey BTN_0 0; ReportKey BTN_1 0; ReportKey BTN_2 0;
      ReportKey BTN_3 0; ReportKey BTN_4 0; ReportKey BTN_5 0;
      ReportKey BTN_6 0; ReportKey BTN_7 0; ReportKey BTN_8 0;
      ReportKey BTN_9 0; ReportKey (KEY_RAW 0x118) 0;
      ReportKey (KEY_RAW 0x119) 0; ReportKey BTN_WHEEL 0x1000;
      ReportKey BTN_GEAR_DOWN 0; ReportKey BTN_GEAR_UP 0 ] /\
  buttons_state (device_after r1) = 0x1000 /\
  wheel_state (device_after r1) = 0 /\
  key_code_eqb BTN_WHEEL BTN_GEAR_DOWN = true /\
  length (calls r1) = 15%nat /\
  length (calls r2) = 15%nat /\
  length (calls r1) <> (13 + 1 + 2)%nat /\
  ~ (exists (buttons : list input_call) (centre : input_call)
            (directions : list input_call),
        length buttons = 13%nat /\ length directions = 2%nat /\
        calls r1 = buttons ++ centre :: directions).
Proof.
  intros d r1 r2.
  assert (Hlen : length (calls r1) = 15%nat) by reflexivity.
  repeat apply conj; try reflexivity.
  - rewrite Hlen. discriminate.
  - intros (buttons & centre & directions & Hb & Hd & Hcalls).
    rewrite Hcalls, length_app in Hlen. cbn [length] in Hlen. lia.
Qed.

(** C3 (amended): after every buttons-class frame, whichever domain it
    updated, the handler makes exactly fifteen key reports: thirteen computed
    from the stored button bitmap (the twelve numbered buttons from bits 0 to
    11 and the wheel centre from bit 12), then the two wheel directions
    computed from bits 0 and 1 of the stored wheel bitmap. *)
Theorem buttons_frame_reports_both_domains :
  forall (evt : veikk_buttons_report_data) (d : veikk_device),
    let r := veikk_buttons_event evt d in
    let b := buttons_state (device_after r) in
    let w := wheel_state (device_after r) in
    calls r
    = map (fun km => ReportKey (fst km) (Z.land b (snd km)))
        [ (BTN_0, 2 ^ 0); (BTN_1, 2 ^ 1); (BTN_2, 2 ^ 2); (BTN_3, 2 ^ 3);
          (BTN_4, 2 ^ 4); (BTN_5, 2 ^ 5); (BTN_6, 2 ^ 6); (BTN_7, 2 ^ 7);
          (BTN_8, 2 ^ 8); (BTN_9, 2 ^ 9);
          (KEY_RAW 0x118, 2 ^ 10); (KEY_RAW 0x119, 2 ^ 11);
          (BTN_WHEEL, 2 ^ 12) ]
      ++ [ ReportKey BTN_GEAR_DOWN (Z.land w (2 ^ 0));
           ReportKey BTN_GEAR_UP (Z.land w (2 ^ 1)) ] /\
    length (calls r) = 15%nat.
Proof.
  intros evt d r b w.
  destruct (buttons_event_reports_stored d evt) as [_ Hcalls].
  fold r in Hcalls. rewrite Hcalls. split; reflexivity.
Qed.

(** C10: in the wheel-group branch the 16-bit mask is merged into the [u8]
    wheel bitmap modulo [2^8], so only its low byte takes part; the frame
    makes exactly two reports from the wheel bitmap, the two wheel
    directions, which show bits 0 and 1 of the stored value; all other
    reports come from the unchanged button bitmap. *)
Theorem wheel_frame_merges_mask_modulo_256 :
  forall (evt : veikk_buttons_report_data) (d : veikk_device),
    device_in_range d ->
    byte_val (btn_type evt) <> 1 ->
    let m := get_unaligned_le16 (btn_btns evt) in
    let r := veikk_buttons_event evt d in
    let w := wheel_state (device_after r) in
    w = (if byte_val (btn_pressed evt) =? 0
         then Z.land (wheel_state d) (Z.lnot (m mod 2 ^ 8))
         else Z.lor (wheel_state d) (m mod 2 ^ 8)) /\
    m mod 2 ^ 8 = byte_val (fst (btn_btns evt)) /\
    0 <= w < 2 ^ 8 /\
    calls r
    = report_keys (buttons_state d) button_domain_keys
      ++ [ ReportKey BTN_GEAR_DOWN (Z.land w 1);
           ReportKey BTN_GEAR_UP (Z.land w 2) ] /\
    key_down (Z.land w 1) = Z.testbit w 0 /\
    key_down (Z.land w 2) = Z.testbit w 1.
Proof.
  intros evt d Hd Ht m r w.
  pose proof Hd as (Hb & Hp & Hw).
  assert (Hw' : w = to_u8 (if byte_val (btn_pressed evt) =? 0
                           then Z.land (wheel_state d) (Z.lnot m)
                           else Z.lor (wheel_state d) m)).
  { subst w r. rewrite (buttons_event_wheel_group d evt Ht). reflexivity. }
  assert (Hbs : buttons_state (device_after r) = buttons_state d).
  { subst r. rewrite (buttons_event_wheel_group d evt Ht). reflexivity. }
  split; [| split; [| split; [| split; [| split]]]].
  - rewrite Hw'. unfold to_u8.
    destruct (byte_val (btn_pressed evt) =? 0).
    + rewrite land_lnot_in_range by (assumption || lia).
      symmetry. apply lnot_mod_pow2_under_land; [lia | assumption].
    + rewrite lor_mod_pow2 by lia.
      rewrite (Z.mod_small (wheel_state d)) by assumption. reflexivity.
  - apply le16_low_byte.
  - rewrite Hw'. apply mod_pow2_range. lia.
  - destruct (buttons_event_reports_stored d evt) as [_ Hcalls].
    fold r in Hcalls. rewrite Hcalls. unfold buttons_frame_keys.
    rewrite Hbs. reflexivity.
  - apply (key_down_land_bit w 0). lia.
  - apply (key_down_land_bit w 1). lia.
Qed.

(** C10 on a freshly probed device: the wheel-group press with mask [0x0102]
    stores [0x02]. *)
Lemma wheel_frame_merges_mask_modulo_256_witness :
  let d := probed_device veikk_model_0x0002 in
  let evt := {| btn_type := x03; btn_pressed := x01; btn_btns := (x02, x01);
                btn_unused2 := [x00; x00; x00] |} in
  device_in_range d /\
  byte_val (btn_type evt) <> 1 /\
  wheel_state (device_after (veikk_buttons_event evt d))
  = Z.lor 0 (get_unaligned_le16 (x02, x01) mod 2 ^ 8).
Proof.
  intros d evt.
  assert (Hd : device_in_range d) by (unfold device_in_range; cbn; lia).
  assert (Ht : byte_val (btn_type evt) <> 1) by (vm_compute; discriminate).
  split; [exact Hd | split; [exact Ht |]].
  exact (proj1 (wheel_frame_merges_mask_modulo_256 evt d Hd Ht)).
Defined.

(** ** Frame validation and dispatch *)

Section Dispatch.

Variables (report : hid_report) (data : list byte) (size : Z).
Variable d : veikk_device.

Lemma raw_event_rejects :
  id report <> 9 \/ size <> 9 ->
  veikk_raw_event report data size d = (- EINVAL, d, []).
Proof.
  intros Hbad. unfold veikk_raw_event, sizeof_veikk_report.
  destruct (Z.eqb_spec (id report) 9) as [Hid | Hid];
    destruct (Z.eqb_spec size 9) as [Hsz | Hsz];
    try reflexivity.
  destruct Hbad; contradiction.
Qed.

Lemma pen_event_run (evt : veikk_pen_report_data) :
  veikk_pen_event evt d
  = (0, d,
     [ ReportAbs ABS_X (get_unaligned_le16 (pen_x evt));
       ReportAbs ABS_Y (get_unaligned_le16 (pen_y evt));
       ReportAbs ABS_PRESSURE (get_unaligned_le16 (pen_pressure evt));
       ReportKey BTN_TOUCH (Z.land (byte_val (pen_btns evt)) 0x01);
       ReportKey BTN_STYLUS (Z.land (byte_val (pen_btns evt)) 0x02);
       ReportKey BTN_STYLUS2 (Z.land (byte_val (pen_btns evt)) 0x04) ]).
Proof. reflexivity. Qed.

Lemma raw_event_dispatch :
  id report = 9 -> size = 9 ->
  let type := byte_val (rpt_type (as_veikk_report data)) in
  let payload := rpt_data (as_veikk_report data) in
  veikk_raw_event report data size d
  = if type =? VEIKK_PEN_REPORT then
      synced (veikk_pen_event (as_pen_report_data payload) d)
    else if type =? VEIKK_BUTTON_REPORT then
      synced (veikk_buttons_event (as_buttons_report_data payload) d)
    else if type =? VEIKK_PAD_REPORT then
      synced (veikk_pad_event (as_pad_report_data payload) d)
    else (0, d, []).
Proof.
  intros Hid Hsz type payload.
  unfold veikk_raw_event, sizeof_veikk_report. rewrite Hid, Hsz.
  cbn [Z.eqb Pos.eqb negb orb]. fold type payload.
  destruct (type =? VEIKK_PEN_REPORT); [reflexivity |].
  destruct (type =? VEIKK_BUTTON_REPORT).
  - unfold bind at 1.
    pose proof (buttons_event_reports_stored d (as_buttons_report_data payload))
      as [Hres _].
    destruct (veikk_buttons_event (as_buttons_report_data payload) d)
      as [[res d'] out].
    cbn in Hres. subst res. reflexivity.
  - destruct (type =? VEIKK_PAD_REPORT); [| reflexivity].
    unfold bind at 1.
    pose proof (pad_event_reports_stored d (as_pad_report_data payload))
      as [Hres _].
    destruct (veikk_pad_event (as_pad_report_data payload) d)
      as [[res d'] out].
    cbn in Hres. subst res. reflexivity.
Qed.

End Dispatch.

(** C4: a byte sequence whose length is not 9, or whose leading tag byte is
    not 9, is rejected with [-EINVAL]; no call is made on the input device
    (no report, no [input_sync]) and the descriptor comes back as it was.
    The driver makes the test on [report->id] and [size]
    ([raw_event_rejects]); delivered by the HID core these are the leading
    byte and the length. *)
Theorem malformed_frame_rejected :
  forall (data : list byte) (d : veikk_device),
    length data <> 9%nat \/ byte_val (at_ data 0) <> 9 ->
    decode data d = (- EINVAL, d, []).
Proof.
  intros data d Hbad. unfold decode. apply raw_event_rejects.
  destruct Hbad as [Hlen | Htag].
  - right. cbn [id]. lia.
  - left. exact Htag.
Qed.

(** C4 on an eight-byte buffer and on a nine-byte buffer with tag [0x08]. *)
Lemma malformed_frame_rejected_witness :
  let d := {| model := veikk_model_0x0002; buttons_state := 5;
              pad_state := 3; wheel_state := 1 |} in
  decode [x09; x42; x01; x01; x01; x00; x00; x00] d = (- EINVAL, d, []) /\
  decode [x08; x42; x01; x01; x01; x00; x00; x00; x00] d = (- EINVAL, d, []).
Proof.
  intros d. split.
  - apply malformed_frame_rejected. left. cbn. lia.
  - apply malformed_frame_rejected. right. vm_compute. discriminate.
Defined.

(** C5: a pen frame [09 41 flags xl xh yl yh pl ph] reports x, y and
    pressure as the unsigned little-endian values of the three two-byte
    fields, whatever the model's maxima, and the three stylus keys with the
    flags byte masked by bits 0, 1 and 2, so each key is down exactly when
    its bit is set; the run does not read or change the descriptor, so the
    same frame gives the same reports on any descriptor. *)
Theorem pen_frame_decoding :
  forall (flags xl xh yl yh pl ph : byte) (d : veikk_device),
    let frame := [x09; x41; flags; xl; xh; yl; yh; pl; ph] in
    let f := byte_val flags in
    let x := byte_val xl + 2 ^ 8 * byte_val xh in
    let y := byte_val yl + 2 ^ 8 * byte_val yh in
    let p := byte_val pl + 2 ^ 8 * byte_val ph in
    veikk_raw_event {| id := 9 |} frame 9 d
    = (1, d,
       [ ReportAbs ABS_X x; ReportAbs ABS_Y y; ReportAbs ABS_PRESSURE p;
         ReportKey BTN_TOUCH (Z.land f 0x01);
         ReportKey BTN_STYLUS (Z.land f 0x02);
         ReportKey BTN_STYLUS2 (Z.land f 0x04); Sync ]) /\
    key_down (Z.land f 0x01) = Z.testbit f 0 /\
    key_down (Z.land f 0x02) = Z.testbit f 1 /\
    key_down (Z.land f 0x04) = Z.testbit f 2 /\
    (forall d2 : veikk_device,
        calls (veikk_raw_event {| id := 9 |} frame 9 d2)
        = calls (veikk_raw_event {| id := 9 |} frame 9 d)).
Proof.
  intros flags xl xh yl yh pl ph d frame f x y p.
  assert (Hrun : forall d0,
             veikk_raw_event {| id := 9 |} frame 9 d0
             = (1, d0,
                [ ReportAbs ABS_X (get_unaligned_le16 (xl, xh));
                  ReportAbs ABS_Y (get_unaligned_le16 (yl, yh));
                  ReportAbs ABS_PRESSURE (get_unaligned_le16 (pl, ph));
                  ReportKey BTN_TOUCH (Z.land f 0x01);
                  ReportKey BTN_STYLUS (Z.land f 0x02);
                  ReportKey BTN_STYLUS2 (Z.land f 0x04); Sync ])).
  { intros d0. rewrite raw_event_dispatch by reflexivity. reflexivity. }
  split; [| split; [| split; [| split]]].
  - rewrite Hrun, !le16_value. reflexivity.
  - apply (key_down_land_bit f 0). lia.
  - apply (key_down_land_bit f 1). lia.
  - apply (key_down_land_bit f 2). lia.
  - intros d2. rewrite !Hrun. reflexivity.
Qed.

(** A pen frame whose x field is [0xFFFF] on the S640 (x_max 30480): the
    value is reported as it is. *)
Example pen_value_above_model_maximum_passes_through :
  calls (veikk_raw_event {| id := 9 |}
           [x09; x41; x01; xff; xff; x34; x12; x00; x20] 9
           (probed_device veikk_model_0x0001))
  = [ ReportAbs ABS_X 65535; ReportAbs ABS_Y 0x1234; ReportAbs ABS_PRESSURE 8192;
      ReportKey BTN_TOUCH 1; ReportKey BTN_STYLUS 0; ReportKey BTN_STYLUS2 0;
      Sync ].
Proof. reflexivity. Qed.

(** C6: a frame that passes the size and id test and whose type byte is none
    of 0x41, 0x42, 0x43 returns [0] (no error), makes no call on the input
    device and leaves the descriptor as it was; [input_sync] is called
    exactly once, as the last call, for a frame of a known type, and not at
    all for a rejected or an unrecognised one. *)
Theorem unrecognised_frame_ignored_and_sync_once_per_accepted :
  forall (report : hid_report) (data : list byte) (size : Z) (d : veikk_device),
    let r := veikk_raw_event report data size d in
    match well_formed report size, known_type data with
    | false, _ => r = (- EINVAL, d, [])
    | true, false => r = (0, d, [])
    | true, true =>
        result r = 1 /\
        exists reports, calls r = reports ++ [Sync] /\ sync_count reports = 0%nat
    end /\
    sync_count (calls r)
    = (if well_formed report size && known_type data then 1 else 0)%nat.
Proof.
  intros report data size d r. subst r.
  unfold well_formed, known_type, sizeof_veikk_report.
  destruct (Z.eqb_spec (id report) 9) as [Hid | Hid];
    [destruct (Z.eqb_spec size 9) as [Hsz | Hsz] |];
    cbn [andb];
    [| rewrite raw_event_rejects by tauto; split; reflexivity
     | rewrite raw_event_rejects by tauto; split; reflexivity ].
  rewrite (raw_event_dispatch report data size d Hid Hsz).
  change (rpt_type (as_veikk_report data)) with (at_ data 1).
  set (payload := rpt_data (as_veikk_report data)).
  destruct (byte_val (at_ data 1) =? VEIKK_PEN_REPORT); cbn [orb].
  { split; [split; [reflexivity |] | reflexivity].
    eexists. split; [reflexivity | reflexivity]. }
  destruct (byte_val (at_ data 1) =? VEIKK_BUTTON_REPORT); cbn [orb].
  { destruct (buttons_event_reports_stored d (as_buttons_report_data payload))
      as [_ Hcalls].
    unfold synced. cbn [calls snd result fst].
    rewrite Hcalls. split; [split; [reflexivity |] | reflexivity].
    eexists. split; reflexivity. }
  destruct (byte_val (at_ data 1) =? VEIKK_PAD_REPORT); cbn [orb].
  { destruct (pad_event_reports_stored d (as_pad_report_data payload))
      as [_ Hcalls].
    unfold synced. cbn [calls snd result fst].
    rewrite Hcalls. split; [split; [reflexivity |] | reflexivity].
    eexists. split; reflexivity. }
  split; reflexivity.
Qed.

(** C6 on the frame [09 44 00 ...] (unknown type 0x44) and on the scenario
    frame of a button press. *)
Lemma unrecognised_frame_ignored_and_sync_once_per_accepted_witness :
  let d := {| model := veikk_model_0x0002; buttons_state := 5;
              pad_state := 3; wheel_state := 1 |} in
  let unknown := [x09; x44; x00; x01; x02; x03; x04; x05; x06] in
  veikk_raw_event {| id := 9 |} unknown 9 d = (0, d, []) /\
  sync_count (calls (veikk_raw_event {| id := 9 |} unknown 9 d)) = 0%nat /\
  sync_count (calls (veikk_raw_event {| id := 9 |} button0_press 9 d)) = 1%nat.
Proof.
  intros d unknown.
  pose proof (unrecognised_frame_ignored_and_sync_once_per_accepted
                {| id := 9 |} unknown 9 d) as [Hrun Hcount].
  pose proof (unrecognised_frame_ignored_and_sync_once_per_accepted
                {| id := 9 |} button0_press 9 d) as [_ Hcount'].
  split; [exact Hrun | split; [exact Hcount | exact Hcount']].
Defined.

(** ** Sequences of frames *)

Section Sequences.

Lemma byte_val_of (z : Z) : 0 <= z < 2 ^ 8 -> byte_val (byte_of z) = z.
Proof.
  intros Hz. change (2 ^ 8) with 256 in Hz. unfold byte_of, byte_val.
  destruct (Byte.of_N (Z.to_N z)) as [b |] eqn:Hof.
  - apply Byte.to_of_N in Hof. rewrite Hof. lia.
  - apply Byte.of_N_None_iff in Hof. lia.
Qed.

Lemma le16_bytes_value (m : Z) :
  0 <= m < 2 ^ 16 -> get_unaligned_le16 (le16_bytes m) = m.
Proof.
  intros Hm. rewrite le16_value. unfold le16_bytes; cbn [fst snd].
  change (2 ^ 16) with 65536 in Hm.
  rewrite !byte_val_of by (apply mod_pow2_range; lia).
  change (2 ^ 8) with 256.
  assert (Hhi : 0 <= m / 256 < 256)
    by (split; [apply Z.div_pos; lia | apply Z.div_lt_upper_bound; lia]).
  rewrite (Z.mod_small (m / 256)) by exact Hhi.
  pose proof (Z.div_mod m 256). lia.
Qed.

Lemma bit_range (i : Z) : 0 <= i < 16 -> 0 <= bit i < 2 ^ 16.
Proof.
  intros Hi. unfold bit. rewrite Z.shiftl_1_l. split.
  - apply Z.pow_nonneg. lia.
  - apply Z.pow_lt_mono_r; lia.
Qed.

Lemma bit_testbit (i j : Z) : 0 <= i -> Z.testbit (bit i) j = (i =? j).
Proof. intros Hi. unfold bit. rewrite Z.shiftl_1_l. apply Z.pow2_bits_eqb. exact Hi. Qed.

(** What a stored press and a stored release do to one bit of the [u16]
    bitmap. *)
Lemma press_bit_of_mask (s m i : Z) :
  0 <= i < 16 ->
  Z.testbit (to_u16 (Z.lor s m)) i = Z.testbit s i || Z.testbit m i.
Proof.
  intros Hi. unfold to_u16. rewrite Z.mod_pow2_bits_low by lia.
  apply Z.lor_spec.
Qed.

Lemma release_bit_of_mask (s m i : Z) :
  0 <= i < 16 ->
  Z.testbit (to_u16 (Z.land s (Z.lnot m))) i
  = Z.testbit s i && negb (Z.testbit m i).
Proof.
  intros Hi. unfold to_u16. rewrite Z.mod_pow2_bits_low by lia.
  rewrite Z.land_spec, Z.lnot_spec by lia. reflexivity.
Qed.

(** A delivered button-group frame runs the buttons handler on its mask. *)
Lemma button_group_frame_run (pressed : byte) (mask : Z) (d : veikk_device) :
  veikk_raw_event {| id := 9 |} (buttons_frame x01 pressed mask) 9 d
  = synced (veikk_buttons_event
              {| btn_type := x01; btn_pressed := pressed;
                 btn_btns := le16_bytes mask;
                 btn_unused2 := [x00; x00; x00] |} d).
Proof.
  rewrite raw_event_dispatch by reflexivity.
  unfold buttons_frame. destruct (le16_bytes mask) as [lo hi]. reflexivity.
Qed.

Lemma button_group_frame_state (pressed : byte) (mask : Z) (d : veikk_device) :
  0 <= mask < 2 ^ 16 ->
  let r := veikk_raw_event {| id := 9 |} (buttons_frame x01 pressed mask) 9 d in
  result r = 1 /\
  buttons_state (device_after r)
  = to_u16 (if byte_val pressed =? 0
            then Z.land (buttons_state d) (Z.lnot mask)
            else Z.lor (buttons_state d) mask).
Proof.
  intros Hm r. subst r. rewrite button_group_frame_run.
  split; [reflexivity |].
  unfold synced, device_after at 1. cbn [fst snd].
  rewrite buttons_event_button_group by reflexivity.
  cbn [btn_pressed btn_btns]. rewrite (le16_bytes_value mask Hm). reflexivity.
Qed.

Lemma deliver_cons (f : hid_report * list byte * Z)
      (rest : list (hid_report * list byte * Z)) (d : veikk_device) :
  let first := veikk_raw_event (fst (fst f)) (snd (fst f)) (snd f) d in
  result (deliver (f :: rest) d)
  = result first :: result (deliver rest (device_after first)) /\
  device_after (deliver (f :: rest) d)
  = device_after (deliver rest (device_after first)).
Proof.
  destruct f as [[report data] size]. cbn [fst snd deliver]. unfold bind.
  destruct (veikk_raw_event report data size d) as [[r1 d1] out1].
  cbn [result device_after fst snd].
  destruct (deliver rest d1) as [[rs d2] out2].
  split; reflexivity.
Qed.

End Sequences.

(** C7 (modifier hold): for two distinct bit positions [A] and [B] of the
    button bitmap (any two of its sixteen, so in particular of the thirteen
    used ones), delivering a press of [A], a press of [B] and a release of
    [B] is accepted frame by frame and leaves bit [A] set (and bit [B]
    clear) in [buttons_state], whatever the descriptor held before. *)
Theorem modifier_hold :
  forall (A B : Z) (d : veikk_device),
    0 <= A < 16 -> 0 <= B < 16 -> A <> B ->
    let r := deliver [press_bit A; press_bit B; release_bit B] d in
    result r = [1; 1; 1] /\
    Z.testbit (buttons_state (device_after r)) A = true /\
    Z.testbit (buttons_state (device_after r)) B = false.
Proof.
  intros A B d HA HB HAB r. subst r.
  unfold press_bit, release_bit.
  destruct (deliver_cons ({| id := 9 |}, buttons_frame x01 x01 (bit A), 9)
              [({| id := 9 |}, buttons_frame x01 x01 (bit B), 9);
               ({| id := 9 |}, buttons_frame x01 x00 (bit B), 9)] d)
    as [Hr1 Hd1].
  cbn [fst snd] in Hr1, Hd1.
  destruct (button_group_frame_state x01 (bit A) d (bit_range A HA)) as [R1 S1].
  set (d1 := device_after (veikk_raw_event {| id := 9 |}
                             (buttons_frame x01 x01 (bit A)) 9 d)) in *.
  destruct (deliver_cons ({| id := 9 |}, buttons_frame x01 x01 (bit B), 9)
              [({| id := 9 |}, buttons_frame x01 x00 (bit B), 9)] d1)
    as [Hr2 Hd2].
  cbn [fst snd] in Hr2, Hd2.
  destruct (button_group_frame_state x01 (bit B) d1 (bit_range B HB)) as [R2 S2].
  set (d2 := device_after (veikk_raw_event {| id := 9 |}
                             (buttons_frame x01 x01 (bit B)) 9 d1)) in *.
  destruct (deliver_cons ({| id := 9 |}, buttons_frame x01 x00 (bit B), 9) [] d2)
    as [Hr3 Hd3].
  cbn [fst snd] in Hr3, Hd3.
  destruct (button_group_frame_state x00 (bit B) d2 (bit_range B HB)) as [R3 S3].
  set (d3 := device_after (veikk_raw_event {| id := 9 |}
                             (buttons_frame x01 x00 (bit B)) 9 d2)) in *.
  change (byte_val x01 =? 0) with false in S1, S2.
  change (byte_val x00 =? 0) with true in S3.
  rewrite Hr1, Hr2, Hr3, R1, R2, R3, Hd1, Hd2, Hd3.
  change (device_after (deliver [] d3)) with d3.
  split; [reflexivity |].
  rewrite S3, !release_bit_of_mask, S2, !press_bit_of_mask, S1,
    !press_bit_of_mask, !bit_testbit by lia.
  rewrite !Z.eqb_refl.
  assert (HBA : (B =? A) = false) by (apply Z.eqb_neq; congruence).
  assert (HAB' : (A =? B) = false) by (apply Z.eqb_neq; exact HAB).
  rewrite HBA, HAB'. split.
  - destruct (Z.testbit (buttons_state d) A); reflexivity.
  - apply andb_false_r.
Qed.

(** C7 with button 3 held while button 5 is pressed and released, on a
    freshly probed device. *)
Lemma modifier_hold_witness :
  let r := deliver [press_bit 3; press_bit 5; release_bit 5]
             (probed_device veikk_model_0x0002) in
  Z.testbit (buttons_state (device_after r)) 3 = true /\
  buttons_state (device_after r) = 0x0008.
Proof.
  intros r. split.
  - apply (modifier_hold 3 5 (probed_device veikk_model_0x0002)); lia.
  - reflexivity.
Defined.

(** ** Activation *)

(** C8: when input set-up succeeds, the attach path schedules the pen work
    with delay 100 always, the buttons work with delay 200 exactly when the
    model has buttons, and the pad work with delay 300 exactly when the
    model has a pad, in that order, so the delays are strictly increasing
    along the schedule. *)
Theorem activation_schedule :
  forall (k : setup_outcomes) (dev : veikk_device),
    input_allocated k = true ->
    name_allocated k = true ->
    input_register_status k = 0 ->
    let r := veikk_allocate_setup_register_inputs k dev in
    let pen := {| work := veikk_setup_pen; delay := 100 |} in
    let buttons := {| work := veikk_setup_buttons; delay := 200 |} in
    let pad := {| work := veikk_setup_pad; delay := 300 |} in
    fst r = 0 /\
    snd r = [pen]
            ++ (if has_buttons (model dev) =? 0 then [] else [buttons])
            ++ (if has_pad (model dev) =? 0 then [] else [pad]) /\
    In pen (snd r) /\
    ((exists t, In {| work := veikk_setup_buttons; delay := t |} (snd r))
     <-> has_buttons (model dev) <> 0) /\
    ((exists t, In {| work := veikk_setup_pad; delay := t |} (snd r))
     <-> has_pad (model dev) <> 0) /\
    StronglySorted Z.lt (map delay (snd r)).
Proof.
  intros k dev Halloc Hname Hreg r pen buttons pad.
  assert (Hrun : r = (0, [pen]
            ++ (if has_buttons (model dev) =? 0 then [] else [buttons])
            ++ (if has_pad (model dev) =? 0 then [] else [pad]))).
  { subst r. unfold veikk_allocate_setup_register_inputs,
      veikk_setup_bundled_inputs, veikk_register_input.
    rewrite Halloc, Hname, Hreg. cbn [negb Z.eqb].
    destruct (has_buttons (model dev) =? 0);
      destruct (has_pad (model dev) =? 0); reflexivity. }
  rewrite Hrun. cbn [fst snd].
  split; [reflexivity | split; [reflexivity | split; [left; reflexivity |]]].
  assert (Hscan : forall (w : work_func) (sched : list scheduled_work),
             (exists t, In {| work := w; delay := t |} sched)
             <-> In w (map work sched)).
  { intros w sched. rewrite in_map_iff. split.
    - intros [t Hin]. exists {| work := w; delay := t |}. auto.
    - intros [[w' t] [Hw Hin]]. cbn in Hw. subst w'. exists t. exact Hin. }
  rewrite !Hscan.
  destruct (Z.eqb_spec (has_buttons (model dev)) 0) as [Hb | Hb];
    destruct (Z.eqb_spec (has_pad (model dev)) 0) as [Hp | Hp];
    cbn [app map work delay In];
    (split; [| split]);
    try (repeat constructor; lia);
    (split;
     [ intros Hin;
       repeat (destruct Hin as [Hin | Hin]; try discriminate Hin);
       solve [contradiction | assumption]
     | intros Hne; solve [contradiction | auto ] ]).
Qed.

(** C8 for a model with a gesture pad and no buttons: exactly the pen and
    the pad work are scheduled, the pad work strictly later. *)
Lemma activation_schedule_witness :
  snd (veikk_allocate_setup_register_inputs setup_succeeds
         (probed_device pad_only_model))
  = [ {| work := veikk_setup_pen; delay := 100 |};
      {| work := veikk_setup_pad; delay := 300 |} ].
Proof.
  exact (proj1 (proj2 (activation_schedule setup_succeeds
                         (probed_device pad_only_model)
                         eq_refl eq_refl eq_refl))).
Defined.

(** C9, as stated, fails: byte 2 is not one value shared by the three
    commands; it is [0x04] in the pen command and [0x02] in the other two. *)
Lemma activation_magic_byte_not_shared :
  at_ pen_output_report 2 = x04 /\
  at_ buttons_output_report 2 = x02 /\
  at_ pad_output_report 2 = x02 /\
  ~ (exists magic : byte,
        at_ pen_output_report 2 = magic /\
        at_ buttons_output_report 2 = magic /\
        at_ pad_output_report 2 = magic).
Proof.
  repeat split.
  intros (magic & Hpen & Hbuttons & _).
  rewrite <- Hpen in Hbuttons. discriminate Hbuttons.
Qed.

(** C9 (amended): each of the three command buffers, and the buffer each
    work function hands to the transport, is 9 bytes: byte 0 is the marker
    [0x09], byte 1 the subsystem selector (1 pen, 2 buttons, 3 pad), byte 2
    a fixed value per command ([0x04] for pen, [0x02] for buttons and pad),
    and bytes 3 to 8 are zero. *)
Theorem activation_commands_layout :
  forall f : work_func,
    let selector :=
      match f with
      | veikk_setup_pen => x01
      | veikk_setup_buttons => x02
      | veikk_setup_pad => x03
      end in
    let magic :=
      match f with
      | veikk_setup_pen => x04
      | veikk_setup_buttons | veikk_setup_pad => x02
      end in
    let command :=
      match f with
      | veikk_setup_pen => pen_output_report
      | veikk_setup_buttons => buttons_output_report
      | veikk_setup_pad => pad_output_report
      end in
    command = [x09; selector; magic] ++ repeat x00 6 /\
    length command = 9%nat /\
    run_work true f = (0, Some command).
Proof.
  intros [ | | ]; repeat split.
Qed.

(** * The rest of the raw-event path *)

(** ** Stores, bit by bit and twice over *)

Section Stores.

Variable n : Z.
Hypothesis n_nonneg : 0 <= n.

Lemma stored_or_bit (s m i : Z) :
  0 <= i < n ->
  Z.testbit (Z.lor s m mod 2 ^ n) i = Z.testbit s i || Z.testbit m i.
Proof.
  intros Hi. rewrite Z.mod_pow2_bits_low by lia. apply Z.lor_spec.
Qed.

Lemma stored_and_not_bit (s m i : Z) :
  0 <= i < n ->
  Z.testbit (Z.land s (Z.lnot m) mod 2 ^ n) i
  = Z.testbit s i && negb (Z.testbit m i).
Proof.
  intros Hi. rewrite Z.mod_pow2_bits_low by lia.
  rewrite Z.land_spec, Z.lnot_spec by lia. reflexivity.
Qed.

Lemma stored_or_twice (s m : Z) :
  Z.lor (Z.lor s m mod 2 ^ n) m mod 2 ^ n = Z.lor s m mod 2 ^ n.
Proof.
  rewrite (lor_mod_pow2 (Z.lor s m mod 2 ^ n) m n n_nonneg).
  rewrite Z.mod_mod by (apply Z.pow_nonzero; lia).
  rewrite (lor_mod_pow2 s m n n_nonneg).
  rewrite <- Z.lor_assoc, Z.lor_diag. reflexivity.
Qed.

Lemma stored_and_not_twice (s m : Z) :
  Z.land (Z.land s (Z.lnot m) mod 2 ^ n) (Z.lnot m) mod 2 ^ n
  = Z.land s (Z.lnot m) mod 2 ^ n.
Proof.
  rewrite (land_mod_pow2_l (Z.land s (Z.lnot m) mod 2 ^ n) (Z.lnot m) n n_nonneg).
  rewrite Z.mod_mod by (apply Z.pow_nonzero; lia).
  rewrite (land_mod_pow2_l s (Z.lnot m) n n_nonneg).
  rewrite <- Z.land_assoc, Z.land_diag. reflexivity.
Qed.

(** Masking a bit below [n] does not see the reduction modulo [2^n]. *)
Lemma land_low_bit_mod (s i : Z) :
  0 <= i < n -> Z.land (s mod 2 ^ n) (2 ^ i) = Z.land s (2 ^ i).
Proof.
  intros Hi. apply Z.bits_inj'. intros j Hj.
  rewrite !Z.land_spec, !Z.pow2_bits_eqb by lia.
  destruct (Z.eqb_spec i j) as [<- | _].
  - rewrite Z.mod_pow2_bits_low by lia. reflexivity.
  - rewrite !andb_false_r. reflexivity.
Qed.

End Stores.

Lemma land_pow2_cases (s i : Z) :
  0 <= i -> Z.land s (2 ^ i) = 0 \/ Z.land s (2 ^ i) = 2 ^ i.
Proof.
  intros Hi. destruct (Z.testbit s i) eqn:Hb.
  - right. apply Z.bits_inj'. intros j Hj.
    rewrite Z.land_spec, Z.pow2_bits_eqb by lia.
    destruct (Z.eqb_spec i j) as [<- | _].
    + rewrite Hb. reflexivity.
    + apply andb_false_r.
  - left. apply Z.bits_inj'. intros j Hj.
    rewrite Z.land_spec, Z.bits_0, Z.pow2_bits_eqb by lia.
    destruct (Z.eqb_spec i j) as [<- | _].
    + rewrite Hb. reflexivity.
    + apply andb_false_r.
Qed.

(** ** One frame *)

Section OneFrame.

Variables (report : hid_report) (data : list byte) (size : Z).
Variable d : veikk_device.

(** The payload seen through the casts is the buffer from offset 2. *)
Lemma payload_at (i : nat) :
  (i < 7)%nat -> at_ (rpt_data (as_veikk_report data)) i = at_ data (2 + i).
Proof.
  intros Hi. unfold at_, as_veikk_report; cbn [rpt_data].
  rewrite nth_firstn.
  destruct (Nat.ltb_spec i 7) as [_ | Hge]; [| lia].
  apply nth_skipn.
Qed.

Lemma as_buttons_fields :
  let evt := as_buttons_report_data (rpt_data (as_veikk_report data)) in
  btn_type evt = at_ data 2 /\ btn_pressed evt = at_ data 3 /\
  btn_btns evt = (at_ data 4, at_ data 5).
Proof.
  cbn [as_buttons_report_data btn_type btn_pressed btn_btns].
  rewrite !payload_at by lia. repeat split.
Qed.

Lemma as_pad_fields :
  let evt := as_pad_report_data (rpt_data (as_veikk_report data)) in
  pad_pressed evt = at_ data 2 /\ pad_btns evt = at_ data 3.
Proof.
  cbn [as_pad_report_data pad_pressed pad_btns].
  rewrite !payload_at by lia. repeat split.
Qed.

(** The descriptor after a frame: only a well-formed buttons or pad frame
    goes through a handler that writes. *)
Lemma raw_event_device :
  device_after (veikk_raw_event report data size d)
  = if well_formed report size then
      let type := byte_val (at_ data 1) in
      let payload := rpt_data (as_veikk_report data) in
      if type =? VEIKK_BUTTON_REPORT then
        device_after (veikk_buttons_event (as_buttons_report_data payload) d)
      else if type =? VEIKK_PAD_REPORT then
        device_after (veikk_pad_event (as_pad_report_data payload) d)
      else d
    else d.
Proof.
  unfold well_formed, sizeof_veikk_report.
  destruct (Z.eqb_spec (id report) 9) as [Hid | Hid];
    [destruct (Z.eqb_spec size 9) as [Hsz | Hsz] |]; cbn [andb];
    [| rewrite raw_event_rejects by tauto; reflexivity
     | rewrite raw_event_rejects by tauto; reflexivity ].
  rewrite (raw_event_dispatch report data size d Hid Hsz).
  change (rpt_type (as_veikk_report data)) with (at_ data 1).
  cbv zeta.
  destruct (Z.eqb_spec (byte_val (at_ data 1)) VEIKK_PEN_REPORT) as [Hpen | _].
  - rewrite Hpen. reflexivity.
  - destruct (byte_val (at_ data 1) =? VEIKK_BUTTON_REPORT); [reflexivity |].
    destruct (byte_val (at_ data 1) =? VEIKK_PAD_REPORT); reflexivity.
Qed.

(** The three possible return values, and [input_sync] exactly with [1]. *)
Lemma raw_event_result_and_sync :
  let r := veikk_raw_event report data size d in
  (result r = 1 \/ result r = 0 \/ result r = - EINVAL) /\
  sync_count (calls r) = (if result r =? 1 then 1%nat else 0%nat).
Proof.
  cbv zeta.
  destruct (Z.eq_dec (id report) 9) as [Hid | Hid];
    [destruct (Z.eq_dec size 9) as [Hsz | Hsz] |];
    [| rewrite raw_event_rejects by tauto; split; [right; right |]; reflexivity
     | rewrite raw_event_rejects by tauto; split; [right; right |]; reflexivity ].
  rewrite (raw_event_dispatch report data size d Hid Hsz). cbv zeta.
  set (payload := rpt_data (as_veikk_report data)).
  destruct (byte_val (rpt_type (as_veikk_report data)) =? VEIKK_PEN_REPORT).
  { split; [left |]; reflexivity. }
  destruct (byte_val (rpt_type (as_veikk_report data)) =? VEIKK_BUTTON_REPORT).
  { destruct (buttons_event_reports_stored d (as_buttons_report_data payload))
      as [_ Hcalls].
    unfold synced. cbn [calls snd result fst]. rewrite Hcalls.
    split; [left |]; reflexivity. }
  destruct (byte_val (rpt_type (as_veikk_report data)) =? VEIKK_PAD_REPORT).
  { destruct (pad_event_reports_stored d (as_pad_report_data payload))
      as [_ Hcalls].
    unfold synced. cbn [calls snd result fst]. rewrite Hcalls.
    split; [left |]; reflexivity. }
  split; [right; left |]; reflexivity.
Qed.

End OneFrame.

(** ** Runs and sequences *)

Lemma run_ext {A} (r1 r2 : A * veikk_device * list input_call) :
  result r1 = result r2 -> device_after r1 = device_after r2 ->
  calls r1 = calls r2 -> r1 = r2.
Proof.
  destruct r1 as [[a1 d1] o1], r2 as [[a2 d2] o2]. cbn.
  intros -> -> ->. reflexivity.
Qed.

Lemma bind_device {A B} (c : drv A) (k : drv B) (d : veikk_device) :
  device_after ((c ;; k) d) = device_after (k (device_after (c d))).
Proof.
  unfold bind. destruct (c d) as [[a d1] o1]. cbn [device_after fst snd].
  destruct (k d1) as [[b d2] o2]. reflexivity.
Qed.

Lemma deliver_cons_calls (f : hid_report * list byte * Z)
      (rest : list (hid_report * list byte * Z)) (d : veikk_device) :
  let first := veikk_raw_event (fst (fst f)) (snd (fst f)) (snd f) d in
  calls (deliver (f :: rest) d)
  = calls first ++ calls (deliver rest (device_after first)).
Proof.
  destruct f as [[report data] size]. cbn [fst snd deliver]. unfold bind.
  destruct (veikk_raw_event report data size d) as [[r1 d1] out1].
  cbn [calls device_after fst snd].
  destruct (deliver rest d1) as [[rs d2] out2].
  unfold ret. cbn [snd]. rewrite app_nil_r. reflexivity.
Qed.

Lemma buttons_event_model (evt : veikk_buttons_report_data) (d : veikk_device) :
  model (device_after (veikk_buttons_event evt d)) = model d.
Proof.
  destruct (Z.eq_dec (byte_val (btn_type evt)) 1) as [Ht | Ht].
  - rewrite (buttons_event_button_group d evt Ht). reflexivity.
  - rewrite (buttons_event_wheel_group d evt Ht). reflexivity.
Qed.

Lemma raw_event_keeps_range (report : hid_report) (data : list byte) (size : Z)
      (d : veikk_device) :
  device_in_range d ->
  device_in_range (device_after (veikk_raw_event report data size d)) /\
  model (device_after (veikk_raw_event report data size d)) = model d.
Proof.
  intros Hd. rewrite raw_event_device.
  destruct (well_formed report size); [| split; [exact Hd | reflexivity]].
  cbv zeta.
  destruct (byte_val (at_ data 1) =? VEIKK_BUTTON_REPORT).
  { split; [apply buttons_event_in_range; exact Hd | apply buttons_event_model]. }
  destruct (byte_val (at_ data 1) =? VEIKK_PAD_REPORT).
  { split; [apply pad_event_in_range; exact Hd |].
    rewrite pad_event_device. reflexivity. }
  split; [exact Hd | reflexivity].
Qed.

Lemma buttons_event_twice (evt : veikk_buttons_report_data) (d : veikk_device) :
  veikk_buttons_event evt (device_after (veikk_buttons_event evt d))
  = veikk_buttons_event evt d.
Proof.
  assert (Hdev : device_after (veikk_buttons_event evt
                                 (device_after (veikk_buttons_event evt d)))
                 = device_after (veikk_buttons_event evt d)).
  { destruct (Z.eq_dec (byte_val (btn_type evt)) 1) as [Ht | Ht].
    - rewrite !(buttons_event_button_group _ evt Ht).
      cbn [lv_set buttons_state_lv buttons_state model pad_state wheel_state].
      unfold to_u16. f_equal.
      destruct (byte_val (btn_pressed evt) =? 0).
      + apply stored_and_not_twice. lia.
      + apply stored_or_twice. lia.
    - rewrite !(buttons_event_wheel_group _ evt Ht).
      cbn [lv_set wheel_state_lv buttons_state model pad_state wheel_state].
      unfold to_u8. f_equal.
      destruct (byte_val (btn_pressed evt) =? 0).
      + apply stored_and_not_twice. lia.
      + apply stored_or_twice. lia. }
  apply run_ext.
  - destruct (buttons_event_reports_stored d evt) as [-> _].
    apply buttons_event_reports_stored.
  - exact Hdev.
  - destruct (buttons_event_reports_stored d evt) as [_ ->].
    destruct (buttons_event_reports_stored
                (device_after (veikk_buttons_event evt d)) evt) as [_ ->].
    rewrite Hdev. reflexivity.
Qed.

Lemma pad_event_twice (evt : veikk_pad_report_data) (d : veikk_device) :
  veikk_pad_event evt (device_after (veikk_pad_event evt d))
  = veikk_pad_event evt d.
Proof.
  assert (Hdev : device_after (veikk_pad_event evt
                                 (device_after (veikk_pad_event evt d)))
                 = device_after (veikk_pad_event evt d)).
  { rewrite !pad_event_device.
    cbn [lv_set pad_state_lv buttons_state model pad_state wheel_state].
    unfold to_u8. f_equal.
    destruct (byte_val (pad_pressed evt) =? 0).
    - apply stored_and_not_twice. lia.
    - apply stored_or_twice. lia. }
  apply run_ext.
  - destruct (pad_event_reports_stored d evt) as [-> _].
    apply pad_event_reports_stored.
  - exact Hdev.
  - destruct (pad_event_reports_stored d evt) as [_ ->].
    destruct (pad_event_reports_stored
                (device_after (veikk_pad_event evt d)) evt) as [_ ->].
    rewrite Hdev. reflexivity.
Qed.

(** X1: whatever is delivered, in whatever order, the bitmaps stay within
    their C types and the model reference is not touched. *)
Theorem deliver_keeps_bitmaps_in_range :
  forall (frames : list (hid_report * list byte * Z)) (d : veikk_device),
    device_in_range d ->
    device_in_range (device_after (deliver frames d)) /\
    model (device_after (deliver frames d)) = model d.
Proof.
  induction frames as [| f rest IH]; intros d Hd.
  - split; [exact Hd | reflexivity].
  - destruct (deliver_cons f rest d) as [_ Hdev]. rewrite Hdev.
    destruct (raw_event_keeps_range (fst (fst f)) (snd (fst f)) (snd f) d Hd)
      as [Hrange Hmodel].
    destruct (IH _ Hrange) as [Hrange' Hmodel'].
    split; [exact Hrange' | congruence].
Qed.

Lemma deliver_keeps_bitmaps_in_range_witness :
  let d := probed_device veikk_model_0x0003 in
  let frames :=
    [ press_bit 15;
      ({| id := 9 |}, wheel_press_high_bit, 9);
      ({| id := 9 |}, [x09; x43; x01; xff; x00; x00; x00; x00; x00], 9);
      ({| id := 7 |}, button0_press, 9) ] in
  device_in_range (device_after (deliver frames d)) /\
  model (device_after (deliver frames d)) = veikk_model_0x0003.
Proof.
  intros d frames.
  apply (deliver_keeps_bitmaps_in_range frames d).
  unfold device_in_range; cbn; lia.
Defined.

(** X2: delivering the same frame a second time changes nothing: the second
    run returns the same value, makes the same calls and leaves the
    descriptor the first run left. *)
Theorem frame_delivered_twice :
  forall (report : hid_report) (data : list byte) (size : Z) (d : veikk_device),
    veikk_raw_event report data size
      (device_after (veikk_raw_event report data size d))
    = veikk_raw_event report data size d.
Proof.
  intros report data size d.
  destruct (Z.eq_dec (id report) 9) as [Hid | Hid];
    [destruct (Z.eq_dec size 9) as [Hsz | Hsz] |];
    [| rewrite !raw_event_rejects by tauto; reflexivity
     | rewrite !raw_event_rejects by tauto; reflexivity ].
  rewrite !(raw_event_dispatch report data size _ Hid Hsz). cbv zeta.
  destruct (byte_val (rpt_type (as_veikk_report data)) =? VEIKK_PEN_REPORT);
    [reflexivity |].
  destruct (byte_val (rpt_type (as_veikk_report data)) =? VEIKK_BUTTON_REPORT).
  { unfold synced at 2. cbn [device_after fst snd].
    fold (device_after
            (veikk_buttons_event
               (as_buttons_report_data (rpt_data (as_veikk_report data))) d)).
    rewrite buttons_event_twice. reflexivity. }
  destruct (byte_val (rpt_type (as_veikk_report data)) =? VEIKK_PAD_REPORT);
    [| reflexivity].
  unfold synced at 2. cbn [device_after fst snd].
  fold (device_after
          (veikk_pad_event
             (as_pad_report_data (rpt_data (as_veikk_report data))) d)).
  rewrite pad_event_twice. reflexivity.
Qed.

(** One frame and one bit of one bitmap. *)
Lemma frame_touch_step (dm : domain) (f : hid_report * list byte * Z)
      (d : veikk_device) (i : Z) :
  0 <= i < domain_width dm ->
  Z.testbit
    (domain_state dm
       (device_after (veikk_raw_event (fst (fst f)) (snd (fst f)) (snd f) d))) i
  = match frame_touch dm f i with
    | Some p => p
    | None => Z.testbit (domain_state dm d) i
    end.
Proof.
  destruct f as [[report data] size]; cbn [fst snd]. intros Hi.
  rewrite raw_event_device. unfold frame_touch.
  destruct (well_formed report size); cbn [andb];
    [| destruct dm; reflexivity].
  cbv zeta.
  destruct (as_buttons_fields data) as (Bt & Bp & Bm).
  destruct (as_pad_fields data) as (Pp & Pm).
  destruct (Z.eqb_spec (byte_val (at_ data 1)) VEIKK_BUTTON_REPORT) as [E | E].
  - rewrite E. change (VEIKK_BUTTON_REPORT =? VEIKK_PAD_REPORT) with false.
    destruct (Z.eqb_spec (byte_val (at_ data 2)) 1) as [T | T].
    + rewrite buttons_event_button_group by (rewrite Bt; exact T).
      rewrite Bp, Bm.
      destruct dm; cbn [domain_state domain_width lv_set buttons_state_lv
                          buttons_state wheel_state pad_state andb negb] in *;
        try reflexivity.
      unfold to_u16.
      destruct (byte_val (at_ data 3) =? 0); cbn [negb].
      * rewrite stored_and_not_bit by lia.
        destruct (Z.testbit (get_unaligned_le16 (at_ data 4, at_ data 5)) i);
          cbn [negb]; [apply andb_false_r | apply andb_true_r].
      * rewrite stored_or_bit by lia.
        destruct (Z.testbit (get_unaligned_le16 (at_ data 4, at_ data 5)) i);
          [apply orb_true_r | apply orb_false_r].
    + rewrite buttons_event_wheel_group by (rewrite Bt; exact T).
      rewrite Bp, Bm.
      destruct dm; cbn [domain_state domain_width lv_set wheel_state_lv
                          buttons_state wheel_state pad_state andb negb] in *;
        try reflexivity.
      unfold to_u8.
      destruct (byte_val (at_ data 3) =? 0); cbn [negb].
      * rewrite stored_and_not_bit by lia.
        destruct (Z.testbit (get_unaligned_le16 (at_ data 4, at_ data 5)) i);
          cbn [negb]; [apply andb_false_r | apply andb_true_r].
      * rewrite stored_or_bit by lia.
        destruct (Z.testbit (get_unaligned_le16 (at_ data 4, at_ data 5)) i);
          [apply orb_true_r | apply orb_false_r].
  - destruct (Z.eqb_spec (byte_val (at_ data 1)) VEIKK_PAD_REPORT) as [P | P].
    + rewrite pad_event_device. rewrite Pp, Pm.
      destruct dm; cbn [domain_state domain_width lv_set pad_state_lv
                          buttons_state wheel_state pad_state andb negb] in *;
        try reflexivity.
      unfold to_u8.
      destruct (byte_val (at_ data 2) =? 0); cbn [negb].
      * rewrite stored_and_not_bit by lia.
        destruct (Z.testbit (byte_val (at_ data 3)) i);
          cbn [negb]; [apply andb_false_r | apply andb_true_r].
      * rewrite stored_or_bit by lia.
        destruct (Z.testbit (byte_val (at_ data 3)) i);
          [apply orb_true_r | apply orb_false_r].
    + destruct dm; reflexivity.
Qed.

(** X3 (last writer wins, bit by bit): after any sequence of delivered
    frames, bit [i] of a bitmap is what the last frame that mentions the bit
    says (set for a press, clear for a release), and is the bit the
    descriptor had before when no frame of the sequence mentions it.
    Rejected frames, frames of other types and masks without the bit do not
    count. *)
Theorem bitmap_bit_follows_last_touch :
  forall (dm : domain) (i : Z) (frames : list (hid_report * list byte * Z))
         (d : veikk_device),
    0 <= i < domain_width dm ->
    Z.testbit (domain_state dm (device_after (deliver frames d))) i
    = last_touch dm i frames (Z.testbit (domain_state dm d) i).
Proof.
  intros dm i frames. induction frames as [| f rest IH]; intros d Hi.
  - reflexivity.
  - destruct (deliver_cons f rest d) as [_ Hdev]. rewrite Hdev.
    rewrite IH by exact Hi. unfold last_touch. cbn [fold_left].
    rewrite frame_touch_step by exact Hi. reflexivity.
Qed.

Lemma bitmap_bit_follows_last_touch_witness :
  let frames :=
    [ press_bit 3; press_bit 5; ({| id := 7 |}, button0_press, 9);
      release_bit 5; ({| id := 9 |}, wheel_press_high_bit, 9) ] in
  let d := probed_device veikk_model_0x0002 in
  Z.testbit (buttons_state (device_after (deliver frames d))) 3 = true /\
  Z.testbit (buttons_state (device_after (deliver frames d))) 5 = false /\
  Z.testbit (buttons_state (device_after (deliver frames d))) 0 = false.
Proof.
  intros frames d.
  assert (H16 : forall i, 0 <= i < 16 -> 0 <= i < domain_width ButtonDomain)
    by (intros i Hi; exact Hi).
  split; [| split].
  - exact (bitmap_bit_follows_last_touch ButtonDomain 3 frames d (H16 3 ltac:(lia))).
  - exact (bitmap_bit_follows_last_touch ButtonDomain 5 frames d (H16 5 ltac:(lia))).
  - exact (bitmap_bit_follows_last_touch ButtonDomain 0 frames d (H16 0 ltac:(lia))).
Defined.

(** X4: frames that write different bitmaps commute: a button-group frame,
    a wheel-group frame and a pad frame leave the same descriptor in either
    order. *)
Theorem frames_of_different_domains_commute :
  forall (b w : veikk_buttons_report_data) (p : veikk_pad_report_data)
         (d : veikk_device),
    byte_val (btn_type b) = 1 ->
    byte_val (btn_type w) <> 1 ->
    device_after ((veikk_buttons_event b ;; veikk_buttons_event w) d)
    = device_after ((veikk_buttons_event w ;; veikk_buttons_event b) d) /\
    device_after ((veikk_buttons_event b ;; veikk_pad_event p) d)
    = device_after ((veikk_pad_event p ;; veikk_buttons_event b) d) /\
    device_after ((veikk_buttons_event w ;; veikk_pad_event p) d)
    = device_after ((veikk_pad_event p ;; veikk_buttons_event w) d).
Proof.
  intros b w p d Hb Hw. rewrite !bind_device.
  repeat first [ rewrite (buttons_event_button_group _ b Hb)
               | rewrite (buttons_event_wheel_group _ w Hw)
               | rewrite pad_event_device ].
  repeat split.
Qed.

Lemma frames_of_different_domains_commute_witness :
  let d := {| model := veikk_model_0x0002; buttons_state := 5;
              pad_state := 3; wheel_state := 1 |} in
  let w := {| btn_type := x03; btn_pressed := x01; btn_btns := (x02, x01);
              btn_unused2 := [x00; x00; x00] |} in
  device_after ((veikk_buttons_event press_wheel_centre ;;
                 veikk_buttons_event w) d)
  = device_after ((veikk_buttons_event w ;;
                   veikk_buttons_event press_wheel_centre) d).
Proof.
  intros d w.
  refine (proj1 (frames_of_different_domains_commute
                   press_wheel_centre w
                   {| pad_pressed := x00; pad_btns := x01;
                      pad_unused := [x00; x00; x00; x00; x00] |}
                   d eq_refl _)).
  vm_compute. discriminate.
Defined.

Lemma report_keys_low_bits (n s : Z) (keys : list (key_code * Z)) :
  0 <= n ->
  Forall (fun km => exists i, 0 <= i < n /\ snd km = 2 ^ i) keys ->
  report_keys (s mod 2 ^ n) keys = report_keys s keys.
Proof.
  intros Hn Hkeys. unfold report_keys. apply map_ext_in.
  intros km Hin. rewrite Forall_forall in Hkeys.
  destruct (Hkeys km Hin) as (i & Hi & ->).
  rewrite land_low_bit_mod by lia. reflexivity.
Qed.

Lemma button_domain_keys_bits :
  Forall (fun km => exists i, 0 <= i < 13 /\ snd km = 2 ^ i) button_domain_keys.
Proof.
  unfold button_domain_keys.
  repeat (apply Forall_cons || apply Forall_nil); cbn [snd].
  - exists 0; split; [lia | reflexivity].
  - exists 1; split; [lia | reflexivity].
  - exists 2; split; [lia | reflexivity].
  - exists 3; split; [lia | reflexivity].
  - exists 4; split; [lia | reflexivity].
  - exists 5; split; [lia | reflexivity].
  - exists 6; split; [lia | reflexivity].
  - exists 7; split; [lia | reflexivity].
  - exists 8; split; [lia | reflexivity].
  - exists 9; split; [lia | reflexivity].
  - exists 10; split; [lia | reflexivity].
  - exists 11; split; [lia | reflexivity].
  - exists 12; split; [lia | reflexivity].
Qed.

Lemma wheel_domain_keys_bits :
  Forall (fun km => exists i, 0 <= i < 2 /\ snd km = 2 ^ i) wheel_domain_keys.
Proof.
  unfold wheel_domain_keys.
  repeat (apply Forall_cons || apply Forall_nil); cbn [snd].
  - exists 0; split; [lia | reflexivity].
  - exists 1; split; [lia | reflexivity].
Qed.

Lemma pad_domain_keys_bits :
  Forall (fun km => exists i, 0 <= i < 5 /\ snd km = 2 ^ i) pad_domain_keys.
Proof.
  unfold pad_domain_keys.
  repeat (apply Forall_cons || apply Forall_nil); cbn [snd].
  - exists 0; split; [lia | reflexivity].
  - exists 1; split; [lia | reflexivity].
  - exists 2; split; [lia | reflexivity].
  - exists 3; split; [lia | reflexivity].
  - exists 4; split; [lia | reflexivity].
Qed.

(** X5: the bitmaps store more bits than are ever shown.  The key reports of
    a buttons frame are those of the low 13 bits of [buttons_state] and the
    low 2 bits of [wheel_state]; the key reports of a pad frame are those of
    the low 5 bits of [pad_state].  Bits 13 to 15 of the button bitmap, 2 to
    7 of the wheel bitmap and 5 to 7 of the pad bitmap are merged like the
    others and never reported. *)
Theorem reports_show_low_bits_only :
  forall (bevt : veikk_buttons_report_data) (pevt : veikk_pad_report_data)
         (d : veikk_device),
    let db := device_after (veikk_buttons_event bevt d) in
    let dp := device_after (veikk_pad_event pevt d) in
    calls (veikk_buttons_event bevt d)
    = report_keys (buttons_state db mod 2 ^ 13) button_domain_keys
      ++ report_keys (wheel_state db mod 2 ^ 2) wheel_domain_keys /\
    calls (veikk_pad_event pevt d)
    = report_keys (pad_state dp mod 2 ^ 5) pad_domain_keys.
Proof.
  intros bevt pevt d db dp. split.
  - destruct (buttons_event_reports_stored d bevt) as [_ ->].
    fold db. unfold buttons_frame_keys.
    rewrite (report_keys_low_bits 13) by (lia || apply button_domain_keys_bits).
    rewrite (report_keys_low_bits 2) by (lia || apply wheel_domain_keys_bits).
    reflexivity.
  - destruct (pad_event_reports_stored d pevt) as [_ ->].
    fold dp. unfold pad_frame_keys.
    rewrite (report_keys_low_bits 5) by (lia || apply pad_domain_keys_bits).
    reflexivity.
Qed.

(** A button-group press of bits 13 to 15 is stored and shows nothing. *)
Example high_button_bits_stored_not_shown :
  let r := veikk_raw_event {| id := 9 |}
             [x09; x42; x01; x01; x00; xe0; x00; x00; x00] 9
             (probed_device veikk_model_0x0002) in
  buttons_state (device_after r) = 0xE000 /\
  Forall (fun c => match c with ReportKey _ v => v = 0 | _ => True end) (calls r).
Proof.
  split; [reflexivity |].
  vm_compute. repeat constructor.
Qed.

Lemma stylus_keys_bits :
  Forall (fun km => exists i, 0 <= i < 3 /\ snd km = 2 ^ i) stylus_keys.
Proof.
  unfold stylus_keys.
  repeat (apply Forall_cons || apply Forall_nil); cbn [snd].
  - exists 0; split; [lia | reflexivity].
  - exists 1; split; [lia | reflexivity].
  - exists 2; split; [lia | reflexivity].
Qed.

(** A mask a key is read through in the source is one of that key's masks. *)
Lemma key_read_mask (k : key_code) (m : Z) :
  In (k, m) key_reads -> In m (key_masks k).
Proof.
  intros Hin. unfold key_masks. apply in_map_iff. exists (k, m).
  split; [reflexivity |]. apply filter_In. split; [exact Hin |].
  cbn [fst]. unfold key_code_eqb. apply Z.eqb_refl.
Qed.

Lemma report_keys_in_bounds (n s : Z) (keys : list (key_code * Z)) :
  incl keys key_reads ->
  Forall (fun km => exists i, 0 <= i < n /\ snd km = 2 ^ i) keys ->
  Forall call_in_bounds (report_keys s keys).
Proof.
  intros Hincl Hkeys. unfold report_keys. apply Forall_map.
  rewrite Forall_forall in *. intros [k m] Hin.
  destruct (Hkeys (k, m) Hin) as (i & Hi & Hm). cbn [fst snd] in *. subst m.
  cbn [call_in_bounds].
  destruct (land_pow2_cases s i) as [Hz | Hp]; [lia | left; exact Hz |].
  right. rewrite Hp. apply key_read_mask. apply Hincl. exact Hin.
Qed.

Lemma key_reads_cover :
  incl stylus_keys key_reads /\ incl button_domain_keys key_reads /\
  incl wheel_domain_keys key_reads /\ incl pad_domain_keys key_reads.
Proof.
  unfold key_reads, incl. repeat split; intros km Hin.
  - apply in_or_app. left. exact Hin.
  - apply in_or_app. right. apply in_or_app. left. exact Hin.
  - apply in_or_app. right. apply in_or_app. right.
    apply in_or_app. left. exact Hin.
  - apply in_or_app. right. apply in_or_app. right.
    apply in_or_app. right. exact Hin.
Qed.

(** X6: what the driver passes to the input device is bounded, whatever the
    frame and the descriptor: the value of a key call is [0] or a mask that
    this key is read through in the source (one bit, not normalised to 1;
    keys are taken by code, so key [0x150] has the two masks [0x1000] and
    [0x1]), and an axis value is below [2^16]. *)
Theorem calls_are_bounded :
  forall (report : hid_report) (data : list byte) (size : Z) (d : veikk_device),
    Forall call_in_bounds (calls (veikk_raw_event report data size d)).
Proof.
  intros report data size d.
  destruct key_reads_cover as (Hstylus & Hbuttons & Hwheel & Hpad).
  destruct (Z.eq_dec (id report) 9) as [Hid | Hid];
    [destruct (Z.eq_dec size 9) as [Hsz | Hsz] |];
    [| rewrite raw_event_rejects by tauto; constructor
     | rewrite raw_event_rejects by tauto; constructor ].
  rewrite (raw_event_dispatch report data size d Hid Hsz). cbv zeta.
  set (payload := rpt_data (as_veikk_report data)).
  destruct (byte_val (rpt_type (as_veikk_report data)) =? VEIKK_PEN_REPORT).
  { rewrite pen_event_run. unfold synced. cbn [calls snd app].
    set (f := byte_val (pen_btns (as_pen_report_data payload))).
    repeat (apply Forall_cons; [cbn [call_in_bounds]; apply le16_range |]).
    change (Forall call_in_bounds (report_keys f stylus_keys ++ [Sync])).
    apply Forall_app; split.
    - apply (report_keys_in_bounds 3); [exact Hstylus | apply stylus_keys_bits].
    - repeat constructor. }
  destruct (byte_val (rpt_type (as_veikk_report data)) =? VEIKK_BUTTON_REPORT).
  { destruct (buttons_event_reports_stored d (as_buttons_report_data payload))
      as [_ Hcalls].
    unfold synced. cbn [calls snd]. rewrite Hcalls. unfold buttons_frame_keys.
    repeat (apply Forall_app; split).
    - apply (report_keys_in_bounds 13);
        [exact Hbuttons | apply button_domain_keys_bits].
    - apply (report_keys_in_bounds 2);
        [exact Hwheel | apply wheel_domain_keys_bits].
    - repeat constructor. }
  destruct (byte_val (rpt_type (as_veikk_report data)) =? VEIKK_PAD_REPORT).
  { destruct (pad_event_reports_stored d (as_pad_report_data payload))
      as [_ Hcalls].
    unfold synced. cbn [calls snd]. rewrite Hcalls. unfold pad_frame_keys.
    apply Forall_app; split.
    - apply (report_keys_in_bounds 5);
        [exact Hpad | apply pad_domain_keys_bits].
    - repeat constructor. }
  constructor.
Qed.

(** The masks of each key of the driver: one each, two for key [0x150]. *)
Example key_masks_of_the_wheel_keys :
  key_masks BTN_0 = [0x001] /\
  key_masks BTN_WHEEL = [0x1000; 0x1] /\
  key_masks BTN_GEAR_DOWN = [0x1000; 0x1] /\
  key_masks BTN_GEAR_UP = [0x2] /\
  key_masks BTN_TOUCH = [0x01] /\
  key_masks BTN_NORTH = [0x01] /\
  key_masks (KEY_RAW 0x119) = [0x800].
Proof. repeat split. Qed.

Lemma sync_count_app (a b : list input_call) :
  sync_count (a ++ b) = (sync_count a + sync_count b)%nat.
Proof. unfold sync_count. rewrite filter_app, length_app. reflexivity. Qed.

(** X7: over any sequence of delivered frames there is one return value per
    frame, each is [1], [0] or [-EINVAL], and the number of [input_sync]
    calls equals the number of frames that returned [1]. *)
Theorem one_sync_per_accepted_frame :
  forall (frames : list (hid_report * list byte * Z)) (d : veikk_device),
    let r := deliver frames d in
    length (result r) = length frames /\
    Forall (fun x => x = 1 \/ x = 0 \/ x = - EINVAL) (result r) /\
    sync_count (calls r) = count_occ Z.eq_dec (result r) 1.
Proof.
  induction frames as [| f rest IH]; intros d.
  - cbv zeta. repeat split. constructor.
  - cbv zeta.
    destruct (deliver_cons f rest d) as [Hres _].
    pose proof (deliver_cons_calls f rest d) as Hcalls.
    cbv zeta in Hres, Hcalls. rewrite Hres, Hcalls.
    set (first := veikk_raw_event (fst (fst f)) (snd (fst f)) (snd f) d) in *.
    destruct (IH (device_after first)) as (Hlen & Hall & Hsync).
    destruct (raw_event_result_and_sync (fst (fst f)) (snd (fst f)) (snd f) d)
      as [Hval Hone].
    fold first in Hval, Hone.
    split; [| split].
    + cbn [length]. rewrite Hlen. reflexivity.
    + constructor; assumption.
    + rewrite sync_count_app, Hone, Hsync.
      destruct (Z.eqb_spec (result first) 1) as [H1 | H1].
      * rewrite count_occ_cons_eq by exact H1. reflexivity.
      * rewrite count_occ_cons_neq by exact H1. reflexivity.
Qed.

(** * Attach and detach *)

Lemma byte_val_inj (a b : byte) : byte_val a = byte_val b -> a = b.
Proof.
  unfold byte_val. intros H. apply N2Z.inj in H.
  pose proof (Byte.of_to_N a) as Ha. rewrite H, Byte.of_to_N in Ha.
  congruence.
Qed.

(** X8: an interface is taken as the proprietary one exactly when its report
    descriptor starts with the three bytes [06 0A FF]; a descriptor shorter
    than three bytes never is. *)
Theorem proprietary_iff_descriptor_prefix :
  forall rdesc : list byte,
    veikk_is_proprietary rdesc = true
    <-> exists rest, rdesc = x06 :: x0a :: xff :: rest.
Proof.
  intros rdesc. unfold veikk_is_proprietary. split.
  - destruct rdesc as [| a [| b [| c rest]]];
      try (cbn; discriminate).
    cbv zeta. rewrite !andb_true_iff, !Z.eqb_eq.
    intros [[[_ Ha] Hb] Hc]. exists rest.
    unfold at_ in Ha, Hb, Hc. cbn [nth] in Ha, Hb, Hc.
    rewrite (byte_val_inj a x06 Ha), (byte_val_inj b x0a Hb),
      (byte_val_inj c xff Hc).
    reflexivity.
  - intros [rest ->]. cbv zeta.
    rewrite !andb_true_iff, !Z.eqb_eq, Z.leb_le.
    repeat split. cbn [length]. lia.
Qed.

(** X9: [veikk_setup_feature] writes to the device exactly when it returns
    0, which is when the device type is 0, 1 or 2 and the buffer is
    allocated.  Another device type gives [-EINVAL] whether or not memory is
    available, a failed allocation gives [-ENOMEM]; what is written is nine
    bytes: [0x09], the device type plus one, one more byte and six zeros. *)
Theorem setup_feature_writes_only_on_success :
  forall (kzalloc_ok : bool) (device_type : Z),
    let r := veikk_setup_feature kzalloc_ok device_type in
    (fst r = 0 <-> kzalloc_ok = true /\ 0 <= device_type <= 2) /\
    (fst r = - EINVAL <-> ~ 0 <= device_type <= 2) /\
    (fst r = - ENOMEM <-> kzalloc_ok = false /\ 0 <= device_type <= 2) /\
    (snd r = None <-> fst r <> 0) /\
    (forall buf, snd r = Some buf ->
       length buf = 9%nat /\
       byte_val (at_ buf 0) = 9 /\
       byte_val (at_ buf 1) = device_type + 1 /\
       skipn 3 buf = repeat x00 6).
Proof.
  intros ok t. unfold veikk_setup_feature, ENOMEM, EINVAL. cbv zeta.
  destruct (Z.eqb_spec t 0) as [-> | H0];
    [| destruct (Z.eqb_spec t 1) as [-> | H1];
       [| destruct (Z.eqb_spec t 2) as [-> | H2]]];
    destruct ok; cbn [fst snd];
    (split; [| split; [| split; [| split]]]);
    try solve [intuition (try discriminate; try lia)];
    intros buf Hbuf; injection Hbuf as <-; repeat split.
Qed.

(** X10: input set-up returns 0 exactly when the input device and its name
    are allocated and registration succeeds; otherwise it returns [-ENOMEM]
    for a failed allocation or the registration status, and then schedules
    nothing.  It never schedules more than three works. *)
Theorem setup_failure_schedules_nothing :
  forall (k : setup_outcomes) (dev : veikk_device),
    let r := veikk_allocate_setup_register_inputs k dev in
    fst r = (if input_allocated k && name_allocated k
             then input_register_status k else - ENOMEM) /\
    (snd r = [] <-> fst r <> 0) /\
    (length (snd r) <= 3)%nat.
Proof.
  intros k dev.
  unfold veikk_allocate_setup_register_inputs, veikk_setup_bundled_inputs,
    veikk_register_input, ENOMEM. cbv zeta.
  destruct (input_allocated k); cbn [negb andb fst snd];
    [| repeat split; [discriminate | cbn; lia]].
  destruct (name_allocated k); cbn [negb Z.eqb Z.opp fst snd];
    [| repeat split; [discriminate | cbn; lia]].
  destruct (Z.eqb_spec (input_register_status k) 0) as [Hreg | Hreg];
    cbn [negb fst snd].
  - split; [symmetry; exact Hreg | split].
    + split; [discriminate | intros H; contradiction].
    + destruct (has_buttons (model dev) =? 0);
        destruct (has_pad (model dev) =? 0); cbn; lia.
  - repeat split; [intros _; exact Hreg | cbn; lia].
Qed.

(** Input set-up seen from probe: success means every step answered with
    success, and then the pen work is in the schedule. *)
Lemma setup_success_schedules_pen (k : setup_outcomes)
      (dev : veikk_device) :
  (fst (veikk_allocate_setup_register_inputs k dev) = 0
   <-> input_allocated k = true /\ name_allocated k = true /\
       input_register_status k = 0) /\
  (fst (veikk_allocate_setup_register_inputs k dev) = 0 ->
   In {| work := veikk_setup_pen; delay := 100 |}
      (snd (veikk_allocate_setup_register_inputs k dev))).
Proof.
  unfold veikk_allocate_setup_register_inputs, veikk_setup_bundled_inputs,
    veikk_register_input, ENOMEM.
  destruct (input_allocated k); cbn [negb fst snd];
    [| intuition (try discriminate; try lia)].
  destruct (name_allocated k); cbn [negb Z.eqb Z.opp fst snd];
    [| intuition (try discriminate; try lia)].
  destruct (Z.eqb_spec (input_register_status k) 0) as [Hreg | Hreg];
    cbn [negb fst snd].
  - split; [intuition | intros _; left; reflexivity].
  - intuition.
Qed.

(** X11: on an interface whose report descriptor does not start with
    [06 0A FF], probe returns 0 without creating a descriptor, scheduling a
    work or starting the hardware, whatever model the table gives and
    whatever the kernel would answer; remove then does not stop the
    hardware either. *)
Theorem generic_interface_is_left_alone :
  forall (rdesc : list byte) (driver_data : option veikk_model)
         (k : probe_outcomes) (veikk_dev : option veikk_device),
    (forall rest, rdesc <> x06 :: x0a :: xff :: rest) ->
    veikk_probe rdesc driver_data k
    = {| probe_status := 0; drvdata := None; probe_scheduled := [];
         hw_started := false |} /\
    veikk_remove rdesc veikk_dev = false.
Proof.
  intros rdesc driver_data k veikk_dev Hgeneric.
  assert (Hnot : veikk_is_proprietary rdesc = false).
  { destruct (veikk_is_proprietary rdesc) eqn:Hp; [| reflexivity].
    assert (Hprefix : exists rest, rdesc = x06 :: x0a :: xff :: rest).
    { destruct rdesc as [| a [| b [| c rest]]];
        try (cbn in Hp; discriminate Hp).
      unfold veikk_is_proprietary in Hp. cbv zeta in Hp.
      rewrite !andb_true_iff, !Z.eqb_eq in Hp.
      destruct Hp as [[[_ Ha] Hb] Hc].
      unfold at_ in Ha, Hb, Hc. cbn [nth] in Ha, Hb, Hc.
      exists rest.
      rewrite (byte_val_inj a x06 Ha), (byte_val_inj b x0a Hb),
        (byte_val_inj c xff Hc).
      reflexivity. }
    destruct Hprefix as [rest Hrest]. destruct (Hgeneric rest Hrest). }
  unfold veikk_probe, veikk_remove. rewrite Hnot. split; reflexivity.
Qed.

Lemma generic_interface_is_left_alone_witness :
  veikk_probe [x05; x01; x09; x02] (Some veikk_model_0x0002)
    {| descriptor_allocated := true; hid_parse_status := 0;
       setup := setup_succeeds; hid_hw_start_status := 0 |}
  = {| probe_status := 0; drvdata := None; probe_scheduled := [];
       hw_started := false |}.
Proof.
  refine (proj1 (generic_interface_is_left_alone
                   [x05; x01; x09; x02] (Some veikk_model_0x0002) _ None _)).
  intros rest H. discriminate H.
Defined.

(** X12: probe returns 0 in two cases only: the interface is not the
    proprietary one, or every step went through and the hardware was
    started.  In the second case the descriptor is the zero-filled one with
    the table's model (all three bitmaps 0, hence in range) and the pen work
    is scheduled.  The hardware is started only after the descriptor was
    allocated, the report descriptor parsed and the input set up. *)
Theorem probe_succeeds_only_when_complete :
  forall (rdesc : list byte) (driver_data : option veikk_model)
         (k : probe_outcomes),
    let r := veikk_probe rdesc driver_data k in
    (probe_status r = 0
     <-> veikk_is_proprietary rdesc = false \/ hw_started r = true) /\
    (hw_started r = true
     <-> veikk_is_proprietary rdesc = true /\ driver_data <> None /\
         descriptor_allocated k = true /\ hid_parse_status k = 0 /\
         input_allocated (setup k) = true /\ name_allocated (setup k) = true /\
         input_register_status (setup k) = 0 /\ hid_hw_start_status k = 0) /\
    (hw_started r = true ->
     exists m, driver_data = Some m /\
               drvdata r = Some (probed_device m) /\
               device_in_range (probed_device m) /\
               In {| work := veikk_setup_pen; delay := 100 |} (probe_scheduled r)).
Proof.
  intros rdesc driver_data k.
  pose proof (setup_success_schedules_pen (setup k)) as Haux.
  unfold veikk_probe. cbv zeta.
  destruct (veikk_is_proprietary rdesc); cbn [negb];
    [| cbn; intuition discriminate].
  destruct driver_data as [m |];
    [| cbn; unfold EINVAL; intuition (try discriminate; try lia; try congruence)].
  destruct (descriptor_allocated k);
    [| cbn; unfold ENOMEM; intuition (try discriminate; try lia)].
  cbn [negb].
  destruct (Z.eqb_spec (hid_parse_status k) 0) as [Hparse | Hparse]; cbn [negb];
    [| cbn; intuition (try discriminate; try lia)].
  specialize (Haux (probed_device m)). destruct Haux as [Hfst Hsched].
  destruct (Z.eqb_spec (fst (veikk_allocate_setup_register_inputs
                               (setup k) (probed_device m))) 0)
    as [Hsetup | Hsetup]; cbn [negb].
  - destruct (Hfst) as [Hok _]. specialize (Hok Hsetup).
    destruct Hok as (Hi & Hn & Hr).
    destruct (Z.eqb_spec (hid_hw_start_status k) 0) as [Hstart | Hstart];
      cbn [negb probe_status hw_started drvdata probe_scheduled].
    + split; [intuition | split; [intuition congruence |]].
      intros _. exists m. repeat split; try (cbn; lia).
      apply Hsched. exact Hsetup.
    + intuition (try discriminate; try lia).
  - cbn [probe_status hw_started drvdata probe_scheduled].
    destruct Hfst as [_ Hback].
    intuition (try discriminate; try lia).
Qed.

(** X13: the works are scheduled before the hardware is started and probe
    has no step that takes them back: when everything up to input set-up
    succeeds and [hid_hw_start] fails, probe returns that failure, the
    hardware is not started, and the works scheduled by input set-up (the pen
    work among them) remain scheduled. *)
Theorem works_remain_scheduled_when_start_fails :
  forall (rdesc : list byte) (m : veikk_model) (k : probe_outcomes),
    veikk_is_proprietary rdesc = true ->
    descriptor_allocated k = true ->
    hid_parse_status k = 0 ->
    fst (veikk_allocate_setup_register_inputs (setup k) (probed_device m)) = 0 ->
    hid_hw_start_status k <> 0 ->
    let r := veikk_probe rdesc (Some m) k in
    probe_status r = hid_hw_start_status k /\
    hw_started r = false /\
    probe_scheduled r
    = snd (veikk_allocate_setup_register_inputs (setup k) (probed_device m)) /\
    In {| work := veikk_setup_pen; delay := 100 |} (probe_scheduled r).
Proof.
  intros rdesc m k Hprop Halloc Hparse Hsetup Hstart.
  unfold veikk_probe. cbv zeta.
  rewrite Hprop, Halloc, Hparse, Hsetup.
  apply Z.eqb_neq in Hstart. rewrite Hstart.
  cbn [negb Z.eqb probe_status hw_started probe_scheduled].
  repeat split.
  apply setup_success_schedules_pen. exact Hsetup.
Qed.

Lemma works_remain_scheduled_when_start_fails_witness :
  let k := {| descriptor_allocated := true; hid_parse_status := 0;
              setup := setup_succeeds; hid_hw_start_status := - 5 |} in
  let r := veikk_probe [x06; x0a; xff; x09; x01] (Some veikk_model_0x1001) k in
  probe_status r = - 5 /\
  hw_started r = false /\
  probe_scheduled r
  = [ {| work := veikk_setup_pen; delay := 100 |};
      {| work := veikk_setup_buttons; delay := 200 |} ].
Proof.
  intros k r.
  destruct (works_remain_scheduled_when_start_fails
              [x06; x0a; xff; x09; x01] veikk_model_0x1001 k
              eq_refl eq_refl eq_refl eq_refl ltac:(discriminate))
    as (Hstatus & Hhw & Hsched & _).
  split; [exact Hstatus | split; [exact Hhw | exact Hsched]].
Defined.

(** ** Input capabilities *)

Lemma string_length_append (a b : string) :
  String.length (a ++ b) = (String.length a + String.length b)%nat.
Proof.
  induction a as [| c a IH]; cbn [String.append String.length].
  - reflexivity.
  - rewrite IH. reflexivity.
Qed.

(** X14: the buffers allocated for the two input names are exactly as long
    as what [sprintf] writes into them: the model name, the suffix and the
    terminating zero byte, for a model name of any length. *)
Theorem input_names_fill_their_buffers :
  forall m : veikk_model,
    Z.of_nat (String.length (pen_name m)) + 1 = pen_name_size m /\
    Z.of_nat (String.length (bundled_name m)) + 1 = bundled_name_size m.
Proof.
  intros m. unfold pen_name, pen_name_size, bundled_name, bundled_name_size.
  rewrite !string_length_append. cbn [String.length]. lia.
Qed.

(** X15: every call the raw-event path makes on the input device, for any
    frame and any descriptor, names a key or an axis that the bundled set-up
    declared on the device, together with its event type: the code is
    declared, and it is declared under the very name the call uses. *)
Theorem bundled_input_declares_every_report :
  forall (k : setup_outcomes) (m : veikk_model)
         (report : hid_report) (data : list byte) (size : Z) (d : veikk_device),
    name_allocated k = true ->
    let input := snd (veikk_setup_bundled_inputs_dev k m allocated_input_dev) in
    fst (veikk_setup_bundled_inputs_dev k m allocated_input_dev)
    = veikk_setup_bundled_inputs k /\
    forallb (declares input) (calls (veikk_raw_event report data size d)) = true /\
    Forall
      (fun c =>
         match c with
         | ReportKey key _ => In EV_KEY (evbit input) /\ In key (keybit input)
         | ReportAbs axis _ => In EV_ABS (evbit input) /\ In axis (absbit input)
         | Sync => True
         end)
      (calls (veikk_raw_event report data size d)).
Proof.
  intros k m report data size d Hname.
  unfold veikk_setup_bundled_inputs_dev, veikk_setup_bundled_inputs.
  rewrite Hname. cbn [negb fst snd]. split; [reflexivity |].
  destruct (Z.eq_dec (id report) 9) as [Hid | Hid];
    [destruct (Z.eq_dec size 9) as [Hsz | Hsz] |];
    [| rewrite raw_event_rejects by tauto; split; [reflexivity | constructor]
     | rewrite raw_event_rejects by tauto; split; [reflexivity | constructor] ].
  rewrite (raw_event_dispatch report data size d Hid Hsz). cbv zeta.
  set (payload := rpt_data (as_veikk_report data)).
  destruct (byte_val (rpt_type (as_veikk_report data)) =? VEIKK_PEN_REPORT).
  { rewrite pen_event_run. unfold synced. cbn [calls snd app].
    split; [reflexivity | named_calls]. }
  destruct (byte_val (rpt_type (as_veikk_report data)) =? VEIKK_BUTTON_REPORT).
  { destruct (buttons_event_reports_stored d (as_buttons_report_data payload))
      as [_ Hcalls].
    unfold synced. cbn [calls snd]. rewrite Hcalls.
    split; [reflexivity |].
    unfold buttons_frame_keys, report_keys.
    cbn [map app button_domain_keys wheel_domain_keys fst snd].
    named_calls. }
  destruct (byte_val (rpt_type (as_veikk_report data)) =? VEIKK_PAD_REPORT).
  { destruct (pad_event_reports_stored d (as_pad_report_data payload))
      as [_ Hcalls].
    unfold synced. cbn [calls snd]. rewrite Hcalls.
    split; [reflexivity |].
    unfold pad_frame_keys, report_keys.
    cbn [map app pad_domain_keys fst snd].
    named_calls. }
  split; [reflexivity | constructor].
Qed.

Lemma bundled_input_declares_every_report_witness :
  forallb
    (declares (snd (veikk_setup_bundled_inputs_dev setup_succeeds
                      veikk_model_0x0002 allocated_input_dev)))
    (calls (veikk_raw_event {| id := 9 |} button0_press 9
              (probed_device veikk_model_0x0002)))
  = true.
Proof.
  exact (proj1 (proj2 (bundled_input_declares_every_report
                         setup_succeeds veikk_model_0x0002 {| id := 9 |}
                         button0_press 9 (probed_device veikk_model_0x0002)
                         eq_refl))).
Defined.

(** X16: the pen-only set-up declares what a pen frame reports (each code,
    under the name the call uses) and none of the keys a buttons or a pad
    frame reports (no code of theirs is declared). *)
Theorem pen_input_declares_pen_reports_only :
  forall (m : veikk_model) (evt : veikk_pen_report_data)
         (bevt : veikk_buttons_report_data) (pevt : veikk_pad_report_data)
         (d : veikk_device),
    let input := snd (veikk_setup_pen_input true m allocated_input_dev) in
    forallb (declares input) (calls (veikk_pen_event evt d)) = true /\
    existsb (declares input) (calls (veikk_buttons_event bevt d)) = false /\
    existsb (declares input) (calls (veikk_pad_event pevt d)) = false /\
    Forall
      (fun c =>
         match c with
         | ReportKey key _ => In EV_KEY (evbit input) /\ In key (keybit input)
         | ReportAbs axis _ => In EV_ABS (evbit input) /\ In axis (absbit input)
         | Sync => True
         end)
      (calls (veikk_pen_event evt d)).
Proof.
  intros m evt bevt pevt d. cbv zeta. split; [| split; [| split]].
  - rewrite pen_event_run. reflexivity.
  - destruct (buttons_event_reports_stored d bevt) as [_ ->]. reflexivity.
  - destruct (pad_event_reports_stored d pevt) as [_ ->]. reflexivity.
  - rewrite pen_event_run. cbn [calls snd]. named_calls.
Qed.

(** X17: start and stop are paired.  Whenever probe started the hardware,
    remove, given the driver data probe left, stops it; on an interface that
    is not the proprietary one neither happens; and remove stops the
    hardware only on the proprietary interface. *)
Theorem remove_stops_what_probe_started :
  forall (rdesc : list byte) (driver_data : option veikk_model)
         (k : probe_outcomes),
    let r := veikk_probe rdesc driver_data k in
    implb (hw_started r) (veikk_remove rdesc (drvdata r)) = true /\
    implb (veikk_remove rdesc (drvdata r)) (veikk_is_proprietary rdesc) = true /\
    implb (negb (veikk_is_proprietary rdesc))
          (negb (hw_started r) && negb (veikk_remove rdesc (drvdata r))) = true.
Proof.
  intros rdesc driver_data k. unfold veikk_probe, veikk_remove. cbv zeta.
  destruct (veikk_is_proprietary rdesc); cbn [negb];
    [| repeat split].
  destruct driver_data as [m |]; [| repeat split].
  destruct (descriptor_allocated k); cbn [negb]; [| repeat split].
  destruct (negb (hid_parse_status k =? 0)); [repeat split |].
  destruct (negb (fst (veikk_allocate_setup_register_inputs
                         (setup k) (probed_device m)) =? 0));
    [repeat split |].
  destruct (negb (hid_hw_start_status k =? 0)); repeat split.
Qed.
